(** * The goto velocity controller of home_robot_hw

    A shallow embedding of
    [home_robot_hw/nodes/goto_controller.py] (class
    [GotoVelocityController]) and the properties of its handlers, of its
    error computation and of its control loop.

    Numbers: the controller computes on numpy float64 values.  A finite
    float is the real number it stands for, and an arithmetic operation
    rounds its exact result to the format: [rnd] of the class [Rounding]
    is any rounding that is monotone, idempotent and symmetric and for
    which the double of [np.pi] is exact, as round-to-nearest on binary64
    is; the identity (exact arithmetic) is the instance on which concrete
    inputs are run.  Infinities, NaN and the sign of zero are not
    modelled.

    Scheduling: callbacks, services and the loop body are run one after
    the other, each one as a whole, in an order given by a schedule.

    The data recorder of [home_robot_hw/ros/recorder.py] (the class
    [Recorder] and the video functions [png_to_mp4] and [pngs_to_mp4])
    is embedded in the modules [Recorder] and [RecorderObject]. *)

From Stdlib Require Import Reals Lra List String Bool.
From Stdlib Require Import ZArith Lia Sorted Permutation.
Import ListNotations.

Open Scope R_scope.

(** ** Numeric primitives *)

Module Numeric.

(** [math.floor] on the reals. *)
Definition floor (r : R) : Z := Int_part r.

(** Rounding to an integer toward zero. *)
Definition trunc (r : R) : Z :=
  if Rle_dec 0 r then floor r else (- floor (- r))%Z.

(** [x < y] as a boolean. *)
Definition Rlt_bool (x y : R) : bool :=
  if Rlt_dec x y then true else false.

(** The rounding of a floating-point format. *)
Class Rounding : Type := {
  rnd : R -> R;
  rnd_monotone : forall x y, x <= y -> rnd x <= rnd y;
  rnd_idempotent : forall x, rnd (rnd x) = rnd x;
  rnd_opp : forall x, rnd (- x) = - rnd x;
  (** [np.pi] is positive and its double is a float *)
  rnd_pi_pos : 0 < rnd PI;
  rnd_double_pi : rnd (2 * rnd PI) = 2 * rnd PI
}.

(** Exact arithmetic: nothing is rounded. *)
#[global] Instance exact : Rounding :=
  Build_Rounding (fun x => x) (fun _ _ H => H) (fun _ => eq_refl)
    (fun _ => eq_refl) PI_RGT_0 eq_refl.

(** C [fmod]: the remainder of the division truncated toward zero.  It
    is exact, and has the sign of [a]. *)
Definition fmod (a b : R) : R := a - b * IZR (trunc (a / b)).

Section Float.

Context {FR : Rounding}.

(** [np.pi], the float nearest to pi. *)
Definition np_pi : R := rnd PI.

(** [a + b], [a - b] and [a * b] on floats. *)
Definition fadd (a b : R) : R := rnd (a + b).
Definition fsub (a b : R) : R := rnd (a - b).
Definition fmul (a b : R) : R := rnd (a * b).

(** The operator [a % b] of Python and numpy on floats, for [b] other
    than zero: [fmod(a, b)], moved by [b] (a rounded addition) when it is
    not zero and its sign is not the sign of [b]. *)
Definition py_mod (a b : R) : R :=
  let m := fmod a b in
  if Req_dec_T m 0 then 0
  else if Bool.eqb (Rlt_bool b 0) (Rlt_bool m 0) then m
  else fadd m b.

End Float.

End Numeric.

Import Numeric.

(** ** Planar poses and ROS messages *)

(** A numpy array of three floats, [[x, y, theta]]. *)
Record xyt : Type := mk_xyt { xyt_0 : R; xyt_1 : R; xyt_2 : R }.

(** [np.zeros(3)] *)
Definition np_zeros3 : xyt := mk_xyt 0 0 0.

(** [arr[2] = v] on a three-element array. *)
Definition set_xyt_2 (v : R) (a : xyt) : xyt :=
  mk_xyt (xyt_0 a) (xyt_1 a) v.

Module Msg.

(** geometry_msgs/Point, Vector3 and Quaternion *)
Record Point : Type := mk_Point { pt_x : R; pt_y : R; pt_z : R }.
Record Vector3 : Type := mk_Vector3 { v3_x : R; v3_y : R; v3_z : R }.
Record Quaternion : Type :=
  mk_Quaternion { q_x : R; q_y : R; q_z : R; q_w : R }.

(** geometry_msgs/Pose *)
Record Pose : Type := mk_Pose { position : Point; orientation : Quaternion }.

(** geometry_msgs/PoseStamped; the header is not read by the controller. *)
Record PoseStamped : Type := mk_PoseStamped { ps_pose : Pose }.

(** geometry_msgs/PoseWithCovariance and nav_msgs/Odometry; only
    [msg.pose.pose] is read by the controller. *)
Record PoseWithCovariance : Type := mk_PoseWithCovariance { pwc_pose : Pose }.
Record Odometry : Type := mk_Odometry { od_pose : PoseWithCovariance }.

(** geometry_msgs/Twist *)
Record Twist : Type := mk_Twist { linear : Vector3; angular : Vector3 }.

(** [Twist()]: every field is zero. *)
Definition Twist_default : Twist :=
  mk_Twist (mk_Vector3 0 0 0) (mk_Vector3 0 0 0).

Definition set_linear_x (v : R) (t : Twist) : Twist :=
  mk_Twist (mk_Vector3 v (v3_y (linear t)) (v3_z (linear t))) (angular t).

Definition set_angular_z (w : R) (t : Twist) : Twist :=
  mk_Twist (linear t) (mk_Vector3 (v3_x (angular t)) (v3_y (angular t)) w).

(** std_srvs/Trigger: empty request. *)
Record TriggerRequest : Type := mk_TriggerRequest { }.
Record TriggerResponse : Type :=
  mk_TriggerResponse { tr_success : bool; tr_message : string }.

(** std_srvs/SetBool *)
Record SetBool : Type := mk_SetBool { data : bool }.
Record SetBoolResponse : Type :=
  mk_SetBoolResponse { sb_success : bool; sb_message : string }.

End Msg.

Import Msg.

(** ** Collaborators of the controller

    The pose algebra ([sophus], [home_robot.utils.geometry],
    [home_robot_hw.ros.utils]) and the velocity control law
    ([home_robot.agent.control.velocity_controllers]) are imported by the
    controller; they are interfaces here. *)

Class PoseAlgebra : Type := {
  (** 4x4 homogeneous matrices *)
  Mat4 : Type;
  (** [sp.SE3] *)
  SE3 : Type;
  (** [matrix_from_pose_msg(msg)] *)
  matrix_from_pose_msg : Pose -> Mat4;
  (** [sp.SE3(m)] *)
  SE3_of_matrix : Mat4 -> SE3;
  (** [a * b] *)
  SE3_mul : SE3 -> SE3 -> SE3;
  (** [a.inverse()] *)
  SE3_inverse : SE3 -> SE3;
  (** [a.matrix()] *)
  SE3_matrix : SE3 -> Mat4;
  (** [sophus2xyt(a)]: a fresh array *)
  sophus2xyt : SE3 -> xyt;
  (** [xyt2sophus(p)] *)
  xyt2sophus : xyt -> SE3;
  (** [xyt_global_to_base(XYT, current_pose)]: a fresh array *)
  xyt_global_to_base : xyt -> xyt -> xyt
}.

Class VelocityControl : Type := {
  (** the internal state of a [DDVelocityControlNoplan] object *)
  ControlState : Type;
  (** [DDVelocityControlNoplan(hz)] *)
  DDVelocityControlNoplan : R -> ControlState;
  (** [self.control(xyt_err)]: the pair [(v, w)] and the object afterwards *)
  control_call : ControlState -> xyt -> (R * R) * ControlState
}.

(** ** The controller object *)

Section Controller.

Context {PA : PoseAlgebra} {VC : VelocityControl} {FR : Rounding}.

(** The attributes of a [GotoVelocityController].  The two publishers
    ([goal_visualizer], [vel_command_pub]) hold no data of the controller;
    what is sent through them is recorded in the trace. *)
Record GotoVelocityController : Type := mk_GotoVelocityController {
  hz : R;
  odom_only : bool;
  control : ControlState;
  xyt_loc : xyt;
  xyt_loc_odom : xyt;
  xyt_goal : option xyt;
  active : bool;
  track_yaw : bool
}.

(** What a method does that is visible outside the object: the calls to
    the error computation and to the control law, and the messages
    published. *)
Inductive Event : Type :=
| Call_compute_error_pose
| Call_control (xyt_err : xyt)
| Publish_cmd_vel (cmd : Twist)
| Publish_goal_abs (m : Mat4).

Inductive exn : Type :=
| TypeError.

(** The result of running a method on an object: a value and the object
    afterwards, or an exception. *)
Inductive outcome (A : Type) : Type :=
| Ok (a : A) (self : GotoVelocityController)
| Raise (e : exn).

Arguments Ok {A} a self.
Arguments Raise {A} e.

(** A method: from the object to the events it produced and its outcome. *)
Definition Node (A : Type) : Type :=
  GotoVelocityController -> list Event * outcome A.

Definition ret {A : Type} (a : A) : Node A :=
  fun self => ([], Ok a self).

Definition bind {A B : Type} (m : Node A) (k : A -> Node B) : Node B :=
  fun self =>
    match m self with
    | (tr, Ok a self') =>
        let '(tr', r) := k a self' in (tr ++ tr', r)
    | (tr, Raise e) => (tr, Raise e)
    end.

Definition raise {A : Type} (e : exn) : Node A :=
  fun _ => ([], Raise e).

Definition emit (ev : Event) : Node unit :=
  fun self => ([ev], Ok tt self).

(** [self.f] *)
Definition get {A : Type} (f : GotoVelocityController -> A) : Node A :=
  fun self => ([], Ok (f self) self).

(** [self.f = v], as an update of the object *)
Definition modify (upd : GotoVelocityController -> GotoVelocityController)
  : Node unit :=
  fun self => ([], Ok tt (upd self)).

Notation "x <- m ;; k" := (bind m (fun x => k))
  (at level 61, m at next level, right associativity).
Notation "m ;;; k" := (bind m (fun _ => k))
  (at level 61, right associativity).

(** Attribute assignments. *)
Definition set_control (c : ControlState) (s : GotoVelocityController) :=
  mk_GotoVelocityController (hz s) (odom_only s) c (xyt_loc s)
    (xyt_loc_odom s) (xyt_goal s) (active s) (track_yaw s).

Definition set_xyt_loc (p : xyt) (s : GotoVelocityController) :=
  mk_GotoVelocityController (hz s) (odom_only s) (control s) p
    (xyt_loc_odom s) (xyt_goal s) (active s) (track_yaw s).

Definition set_xyt_loc_odom (p : xyt) (s : GotoVelocityController) :=
  mk_GotoVelocityController (hz s) (odom_only s) (control s) (xyt_loc s)
    p (xyt_goal s) (active s) (track_yaw s).

Definition set_xyt_goal (g : option xyt) (s : GotoVelocityController) :=
  mk_GotoVelocityController (hz s) (odom_only s) (control s) (xyt_loc s)
    (xyt_loc_odom s) g (active s) (track_yaw s).

Definition set_active (b : bool) (s : GotoVelocityController) :=
  mk_GotoVelocityController (hz s) (odom_only s) (control s) (xyt_loc s)
    (xyt_loc_odom s) (xyt_goal s) b (track_yaw s).

Definition set_track_yaw (b : bool) (s : GotoVelocityController) :=
  mk_GotoVelocityController (hz s) (odom_only s) (control s) (xyt_loc s)
    (xyt_loc_odom s) (xyt_goal s) (active s) b.

(** [__init__(self, hz, odom_only_feedback=True)] *)
Definition __init__ (hz : R) (odom_only_feedback : bool)
  : GotoVelocityController :=
  {| hz := hz;
     odom_only := odom_only_feedback;
     control := DDVelocityControlNoplan hz;
     xyt_loc := np_zeros3;
     xyt_loc_odom := np_zeros3;
     xyt_goal := None;
     active := false;
     track_yaw := true |}.

(** [CONTROL_HZ] and the object built under [__main__]. *)
Definition CONTROL_HZ : R := 20.

Definition default_controller : GotoVelocityController :=
  __init__ CONTROL_HZ true.

(** *** Subscriber callbacks *)

Definition _pose_update_callback (msg : PoseStamped) : Node unit :=
  let pose_sp := SE3_of_matrix (matrix_from_pose_msg (ps_pose msg)) in
  modify (set_xyt_loc (sophus2xyt pose_sp)).

Definition _odom_update_callback (msg : Odometry) : Node unit :=
  let pose_sp :=
    SE3_of_matrix (matrix_from_pose_msg (pwc_pose (od_pose msg))) in
  modify (set_xyt_loc_odom (sophus2xyt pose_sp)).

Definition _goal_update_callback (msg : Pose) : Node unit :=
  let pose_sp := SE3_of_matrix (matrix_from_pose_msg msg) in
  let pose_goal := pose_sp in
  modify (set_xyt_goal (Some (sophus2xyt pose_goal))) ;;;
  (* Visualize *)
  loc <- get xyt_loc ;;
  loc_odom <- get xyt_loc_odom ;;
  emit (Publish_goal_abs
          (SE3_matrix
             (SE3_mul
                (SE3_mul (xyt2sophus loc) (SE3_inverse (xyt2sophus loc_odom)))
                pose_goal))).

(** *** Services *)

Definition _enable_service (request : TriggerRequest)
  : Node TriggerResponse :=
  modify (set_active true) ;;;
  ret (mk_TriggerResponse true "Goto controller is now RUNNING").

Definition _disable_service (request : TriggerRequest)
  : Node TriggerResponse :=
  modify (set_active false) ;;;
  ret (mk_TriggerResponse true "Goto controller is now STOPPED").

Definition _set_yaw_tracking_service (request : SetBool)
  : Node SetBoolResponse :=
  modify (set_track_yaw (data request)) ;;;
  ty <- get track_yaw ;;
  let status_str := (if ty then "ON" else "OFF")%string in
  ret (mk_SetBoolResponse true ("Yaw tracking is now " ++ status_str)%string).

(** *** Error computation *)

(** The heading wrap of [_compute_error_pose]:
    [(e + np.pi) % (2 * np.pi) - np.pi]. *)
Definition wrap_heading (e : R) : R :=
  fsub (py_mod (fadd e np_pi) (fmul 2 np_pi)) np_pi.

(** [_compute_error_pose(self)].  Without a goal the geometry helper is
    handed [None] and raises. *)
Definition _compute_error_pose : Node xyt :=
  emit Call_compute_error_pose ;;;
  oo <- get odom_only ;;
  xyt_loc <- (if oo then get xyt_loc_odom else get xyt_loc) ;;
  goal <- get xyt_goal ;;
  match goal with
  | None => raise TypeError
  | Some g =>
      let xyt_err := xyt_global_to_base g xyt_loc in
      ty <- get track_yaw ;;
      if negb ty
      then ret (set_xyt_2 0 xyt_err)
      else ret (set_xyt_2 (wrap_heading (xyt_2 xyt_err)) xyt_err)
  end.

(** *** Command emission and the control loop *)

Definition _set_velocity (v_m w_r : R) : Node unit :=
  let cmd := Twist_default in
  let cmd := set_linear_x v_m cmd in
  let cmd := set_angular_z w_r cmd in
  emit (Publish_cmd_vel cmd).

(** [self.control(xyt_err)] *)
Definition call_control (xyt_err : xyt) : Node (R * R) :=
  emit (Call_control xyt_err) ;;;
  c <- get control ;;
  let '(vw, c') := control_call c xyt_err in
  modify (set_control c') ;;;
  ret vw.

(** [xyt_goal is not None] *)
Definition is_not_None {A : Type} (o : option A) : bool :=
  match o with Some _ => true | None => false end.

(** One iteration of the [while] loop of [_run_control_loop], up to
    [rate.sleep()]. *)
Definition control_loop_body : Node unit :=
  a <- get active ;;
  goal <- get xyt_goal ;;
  if a && is_not_None goal then
    (* Get state estimation *)
    xyt_err <- _compute_error_pose ;;
    (* Compute control *)
    vw <- call_control xyt_err ;;
    (* Command robot *)
    _set_velocity (fst vw) (snd vw)
  else ret tt.

(** [_run_control_loop(self)] where [rospy.is_shutdown()] is false [n]
    times and true afterwards. *)
Fixpoint _run_control_loop (n : nat) : Node unit :=
  match n with
  | O => ret tt
  | S n' => control_loop_body ;;; _run_control_loop n'
  end.

(** *** The node under a schedule

    After [main] has registered the callbacks and services, messages,
    service calls and loop iterations arrive in some order. *)
Inductive Input : Type :=
| In_pose (msg : PoseStamped)
| In_odom (msg : Odometry)
| In_goal (msg : Pose)
| In_enable (request : TriggerRequest)
| In_disable (request : TriggerRequest)
| In_set_yaw_tracking (request : SetBool)
| In_tick.

Definition dispatch (i : Input) : Node unit :=
  match i with
  | In_pose msg => _pose_update_callback msg
  | In_odom msg => _odom_update_callback msg
  | In_goal msg => _goal_update_callback msg
  | In_enable request => _enable_service request ;;; ret tt
  | In_disable request => _disable_service request ;;; ret tt
  | In_set_yaw_tracking request =>
      _set_yaw_tracking_service request ;;; ret tt
  | In_tick => control_loop_body
  end.

Fixpoint run (sched : list Input) : Node unit :=
  match sched with
  | [] => ret tt
  | i :: rest => dispatch i ;;; run rest
  end.

(** *** Closed forms

    What [_compute_error_pose] returns for a goal [g] and what
    [_set_velocity] publishes, written as functions of the attributes; the
    lemmas [compute_error_pose_eq] and [set_velocity_eq] relate them to the
    methods. *)

Definition error_pose_of (s : GotoVelocityController) (g : xyt) : xyt :=
  let xyt_err :=
    xyt_global_to_base g (if odom_only s then xyt_loc_odom s else xyt_loc s) in
  if track_yaw s
  then set_xyt_2 (wrap_heading (xyt_2 xyt_err)) xyt_err
  else set_xyt_2 0 xyt_err.

Definition cmd_vel_of (v w : R) : Twist :=
  mk_Twist (mk_Vector3 v 0 0) (mk_Vector3 0 0 w).

End Controller.

Arguments Ok {VC A} a self.
Arguments Raise {VC A} e.

(** ** A planar pose algebra and a sample control law

    Instances of the two interfaces on which the controller can be run on
    concrete inputs. *)

Module Planar.

(** A rigid motion of the ground plane: a translation and a heading. *)
Record SE2 : Type := mk_SE2 { tx : R; ty : R; rot : R }.

(** Modelled from the spec: [matrix_from_pose_msg] of
    [home_robot_hw.ros.utils] and [sp.SE3], the conversion of a full 3-D
    pose message to a rigid transform, restricted to poses that rotate
    about the vertical axis (heading [2 * atan (z / w)]). *)
Definition matrix_from_pose_msg (msg : Pose) : SE2 :=
  mk_SE2 (pt_x (position msg)) (pt_y (position msg))
         (2 * atan (q_z (orientation msg) / q_w (orientation msg))).

(** Modelled from the spec: composition of the 3-D pose algebra library,
    on planar motions. *)
Definition mul (a b : SE2) : SE2 :=
  mk_SE2 (tx a + (cos (rot a) * tx b - sin (rot a) * ty b))
         (ty a + (sin (rot a) * tx b + cos (rot a) * ty b))
         (rot a + rot b).

(** Modelled from the spec: inversion of the 3-D pose algebra library, on
    planar motions. *)
Definition inverse (a : SE2) : SE2 :=
  mk_SE2 (- (cos (rot a) * tx a + sin (rot a) * ty a))
         (- (- sin (rot a) * tx a + cos (rot a) * ty a))
         (- rot a).

(** Modelled from the spec: [sophus2xyt] of [home_robot.utils.geometry],
    the conversion to the compact planar pose representation. *)
Definition sophus2xyt (a : SE2) : xyt := mk_xyt (tx a) (ty a) (rot a).

(** Modelled from the spec: [xyt2sophus] of [home_robot.utils.geometry],
    the conversion from the compact planar pose representation. *)
Definition xyt2sophus (p : xyt) : SE2 := mk_SE2 (xyt_0 p) (xyt_1 p) (xyt_2 p).

(** Modelled from the spec: [xyt_global_to_base] of
    [home_robot.utils.geometry].  The goal expressed in the base frame of
    the feedback pose: subtract positions, translate by the inverse
    rotation of the feedback heading, and compute the heading
    difference. *)
Definition xyt_global_to_base (XYT current_pose : xyt) : xyt :=
  let dx := xyt_0 XYT - xyt_0 current_pose in
  let dy := xyt_1 XYT - xyt_1 current_pose in
  let th := xyt_2 current_pose in
  mk_xyt (cos th * dx + sin th * dy)
         (- sin th * dx + cos th * dy)
         (xyt_2 XYT - xyt_2 current_pose).

#[global] Instance pose_algebra : PoseAlgebra :=
  Build_PoseAlgebra SE2 SE2 matrix_from_pose_msg (fun m => m) mul inverse
    (fun a => a) sophus2xyt xyt2sophus xyt_global_to_base.

(** Modelled from the spec: [DDVelocityControlNoplan] of
    [home_robot.agent.control.velocity_controllers], an opaque function
    from a pose error to a pair [(v, w)] with internal state persisting
    across calls.  Here a proportional law that counts its calls. *)
Definition proportional (calls : nat) (xyt_err : xyt) : (R * R) * nat :=
  ((xyt_0 xyt_err, xyt_2 xyt_err), S calls).

#[global] Instance velocity_control : VelocityControl :=
  Build_VelocityControl nat (fun _ => O) proportional.

(** The controller built under [__main__]. *)
Definition controller0 : GotoVelocityController := default_controller.

(** The identity orientation and a goal message at [(x, y)] with heading
    zero. *)
Definition goal_msg (x y : R) : Pose :=
  mk_Pose (mk_Point x y 0) (mk_Quaternion 0 0 0 1).

(** A controller that tracks a goal with heading [PI] from the pose
    [(0, 0, 0)]. *)
Definition controller_pi : GotoVelocityController :=
  set_active true (set_xyt_goal (Some (mk_xyt 0 0 PI)) controller0).

(** A controller that tracks the same goal with yaw tracking off. *)
Definition controller_noyaw : GotoVelocityController :=
  set_track_yaw false controller_pi.

(** A goal message followed by a call of the enable service, and the
    controller that they leave behind. *)
Definition sched_goal_enable : list Input :=
  [In_goal (goal_msg 1 0); In_enable mk_TriggerRequest].

Definition goal_1_0 : xyt :=
  sophus2xyt (matrix_from_pose_msg (goal_msg 1 0)).

Definition controller_tracking : GotoVelocityController :=
  set_active true (set_xyt_goal (Some goal_1_0) controller0).

(** A localization message and an odometry message at [(2, 3)] with
    heading zero. *)
Definition pose_msg_2_3 : PoseStamped := mk_PoseStamped (goal_msg 2 3).

Definition odom_msg_2_3 : Odometry :=
  mk_Odometry (mk_PoseWithCovariance (goal_msg 2 3)).

(** A goal message and two loop iterations, with no call of the enable
    service. *)
Definition sched_goal_ticks : list Input :=
  [In_goal (goal_msg 1 0); In_tick; In_tick].

(** A call of the disable service, a loop iteration and a call of the
    enable service. *)
Definition sched_disable_tick_enable : list Input :=
  [In_disable mk_TriggerRequest; In_tick; In_enable mk_TriggerRequest].

End Planar.

(** ** Observations on schedules and traces *)

Section Observations.

Context {PA : PoseAlgebra}.

Definition is_cmd_vel (ev : Event) : bool :=
  match ev with Publish_cmd_vel _ => true | _ => false end.

Definition is_call_control (ev : Event) : bool :=
  match ev with Call_control _ => true | _ => false end.

Definition is_call_compute_error_pose (ev : Event) : bool :=
  match ev with Call_compute_error_pose => true | _ => false end.

Definition is_tick (i : Input) : bool :=
  match i with In_tick => true | _ => false end.

Definition is_goal_input (i : Input) : bool :=
  match i with In_goal _ => true | _ => false end.

Definition is_enable_input (i : Input) : bool :=
  match i with In_enable _ => true | _ => false end.

(** How many elements of a list satisfy a test. *)
Definition count {A : Type} (p : A -> bool) (l : list A) : nat :=
  List.length (filter p l).

(** A command of a differential drive: no sideways or vertical speed, no
    roll or pitch rate. *)
Definition planar_cmd (cmd : Twist) : Prop :=
  v3_y (linear cmd) = 0 /\ v3_z (linear cmd) = 0 /\
  v3_x (angular cmd) = 0 /\ v3_y (angular cmd) = 0.

(** The error pose carried by an event, if it is a call of the control
    law. *)
Definition control_arg (ev : Event) : option xyt :=
  match ev with Call_control e => Some e | _ => None end.

End Observations.

(** ** The data recorder: videos from recorded images

    A shallow embedding of the video functions of
    [home_robot_hw/ros/recorder.py].  An HDF5 group is the list of its
    members in the order of [keys()]; what [print] and the video writer of
    [cv2] are asked to do is recorded in a trace. *)

Module Recorder.

Local Open Scope Z_scope.

(** A colour image: a numpy array of shape [(shape_0, shape_1, 3)] with
    its pixels in row-major order. *)
Definition pixel : Type := (Z * Z * Z)%type.

Record image : Type :=
  mk_image { shape_0 : nat; shape_1 : nat; pixels : list pixel }.

(** The index of a channel, [0], [1] or [2]. *)
Inductive chan : Type := C0 | C1 | C2.

Definition get_chan (c : chan) (p : pixel) : Z :=
  match c, p with
  | C0, (a, _, _) => a
  | C1, (_, b, _) => b
  | C2, (_, _, d) => d
  end.

Definition set_chan (c : chan) (v : Z) (p : pixel) : pixel :=
  match c, p with
  | C0, (_, b, d) => (v, b, d)
  | C1, (a, _, d) => (a, v, d)
  | C2, (a, b, _) => (a, b, v)
  end.

(** [np.zeros_like(a)] *)
Definition zeros_like (a : image) : image :=
  mk_image (shape_0 a) (shape_1 a) (map (fun _ => (0, 0, 0)) (pixels a)).

(** [img[:, :, c] = src[:, :, c']] for arrays of the same shape. *)
Definition assign_channel (c : chan) (img src : image) (c' : chan) : image :=
  mk_image (shape_0 img) (shape_1 img)
    (map (fun pq => set_chan c (get_chan c' (snd pq)) (fst pq))
         (combine (pixels img) (pixels src))).

(** An HDF5 group: its members by name, in the order of [keys()]. *)
Definition h5_group (A : Type) : Type := list (string * A).

Definition h5_keys {A : Type} (g : h5_group A) : list string := map fst g.

(** [g[k]], [None] when the group has no member [k]. *)
Fixpoint h5_getitem {A : Type} (g : h5_group A) (k : string) : option A :=
  match g with
  | [] => None
  | (k', v) :: rest => if String.eqb k k' then Some v else h5_getitem rest k
  end.

(** The object returned by [cv2.VideoWriter(name, fourcc, fps, size)]. *)
Record VideoWriter : Type := mk_VideoWriter {
  vw_name : string;
  vw_fourcc : string;
  vw_fps : Z;
  vw_size : nat * nat
}.

Inductive exn : Type :=
| KeyError (k : string)
| ValueError (literal : string)
| AttributeError
| Raised (class_name : string).

Inductive event : Type :=
| Print_writing (name : string)
| VideoWriter_new (wr : VideoWriter)
| VideoWriter_write (wr : VideoWriter) (img : image)
| VideoWriter_release (wr : VideoWriter).

(** A computation: the events produced, and a value or an exception. *)
Definition Run (A : Type) : Type := (list event * (exn + A))%type.

Definition ret {A : Type} (a : A) : Run A := ([], inr a).

Definition raise {A : Type} (e : exn) : Run A := ([], inl e).

Definition emit (ev : event) : Run unit := ([ev], inr tt).

Definition bind {A B : Type} (m : Run A) (k : A -> Run B) : Run B :=
  match m with
  | (tr, inl e) => (tr, inl e)
  | (tr, inr a) => let '(tr', r) := k a in (tr ++ tr', r)
  end.

(** [g[k]] with its [KeyError]. *)
Definition getitem {A : Type} (g : h5_group A) (k : string) : Run A :=
  match h5_getitem g k with
  | Some v => ret v
  | None => raise (KeyError k)
  end.

(** [sorted(l, key=lambda pair: pair[0])]: the stable sort by the first
    component, as an insertion sort that puts an element before the
    elements of the same key that followed it. *)
Fixpoint insert_by_key (x : Z * string) (l : list (Z * string))
  : list (Z * string) :=
  match l with
  | [] => [x]
  | y :: l' =>
      if fst x <=? fst y then x :: y :: l' else y :: insert_by_key x l'
  end.

Fixpoint sorted_by_key (l : list (Z * string)) : list (Z * string) :=
  match l with
  | [] => []
  | x :: l' => insert_by_key x (sorted_by_key l')
  end.

Section Video.

(** The bytes of a stored image, the builtin [int] on strings ([None] for
    its [ValueError]) and [img_from_bytes] of
    [home_robot.utils.data_tools.image]. *)
Context {bindata : Type}.
Variable py_int : string -> option Z.
Variable img_from_bytes : bindata -> image.

(** [[(int(j), j) for j in keys]] *)
Fixpoint int_keys (keys : list string) : Run (list (Z * string)) :=
  match keys with
  | [] => ret []
  | j :: rest =>
      match py_int j with
      | None => raise (ValueError j)
      | Some n => bind (int_keys rest) (fun l => ret ((n, j) :: l))
      end
  end.

(** The channel swap of the loop body of [png_to_mp4]. *)
Definition swap_channels (_img : image) : image :=
  let img := zeros_like _img in
  let img := assign_channel C0 img _img C2 in
  let img := assign_channel C1 img _img C1 in
  let img := assign_channel C2 img _img C0 in
  img.

(** [cv2.VideoWriter_fourcc("m", "p", "4", "v")] *)
Definition fourcc : string := "mp4v".

(** The [for] loop of [png_to_mp4] over the sorted pairs, from a given
    value of the variable [writer], when [img_from_bytes] and the calls
    of [cv2] return; the module [Raising] below has the loop with calls
    that may raise. *)
Fixpoint frames_loop (name : string) (fps : Z)
  (img_stream : h5_group bindata) (items : list (Z * string))
  (writer : option VideoWriter) : Run (option VideoWriter) :=
  match items with
  | [] => ret writer
  | (ki, k) :: rest =>
      bind (getitem img_stream k) (fun bin =>
        let _img := img_from_bytes bin in
        let w := shape_0 _img in
        let h := shape_1 _img in
        let img := swap_channels _img in
        bind (match writer with
              | None =>
                  let wr := mk_VideoWriter name fourcc fps (h, w) in
                  bind (emit (VideoWriter_new wr)) (fun _ => ret wr)
              | Some wr => ret wr
              end)
             (fun wr =>
                bind (emit (VideoWriter_write wr img)) (fun _ =>
                  frames_loop name fps img_stream rest (Some wr))))
  end.

(** [png_to_mp4(group, key, name, fps)] *)
Definition png_to_mp4 (group : h5_group (h5_group bindata))
  (key name : string) (fps : Z) : Run unit :=
  bind (emit (Print_writing name)) (fun _ =>
  bind (getitem group key) (fun img_stream =>
  bind (int_keys (h5_keys img_stream)) (fun pairs =>
  bind (frames_loop name fps img_stream (sorted_by_key pairs) None)
       (fun writer =>
          match writer with
          | None => raise AttributeError
          | Some wr => emit (VideoWriter_release wr)
          end)))).


End Video.

(** *** The video functions with calls that may raise

    In [png_to_mp4] above the calls inside the loop return.  Here
    [img_from_bytes], the constructor [cv2.VideoWriter] and
    [writer.write] may raise: the functions are the same, with these
    three calls as they are in the source, without [try] or [finally]
    around them. *)

Module Raising.

Section Video.

Context {bindata : Type}.
Variable py_int : string -> option Z.

(** [img_from_bytes(bindata)] and lines 138 to 142: the image when the
    bytes decode to an array of shape [(h, w, 3)], and otherwise the
    exception of [img_from_bytes] or of the unpacking and indexing of
    the array. *)
Variable img_from_bytes : bindata -> exn + image.

(** The exception of [cv2.VideoWriter(name, fourcc, fps, size)] and of
    [writer.write(img)], if they raise. *)
Variable VideoWriter_raises : VideoWriter -> option exn.
Variable write_raises : VideoWriter -> image -> option exn.

(** A call that returns a value or raises. *)
Definition lift {A : Type} (r : exn + A) : Run A :=
  match r with
  | inl e => raise e
  | inr a => ret a
  end.

(** A call that returns nothing or raises. *)
Definition call (r : option exn) : Run unit :=
  match r with
  | Some e => raise e
  | None => ret tt
  end.

Fixpoint frames_loop (name : string) (fps : Z)
  (img_stream : h5_group bindata) (items : list (Z * string))
  (writer : option VideoWriter) : Run (option VideoWriter) :=
  match items with
  | [] => ret writer
  | (ki, k) :: rest =>
      bind (getitem img_stream k) (fun bin =>
      bind (lift (img_from_bytes bin)) (fun _img =>
        let w := shape_0 _img in
        let h := shape_1 _img in
        let img := swap_channels _img in
        bind (match writer with
              | None =>
                  let wr := mk_VideoWriter name fourcc fps (h, w) in
                  bind (call (VideoWriter_raises wr)) (fun _ =>
                  bind (emit (VideoWriter_new wr)) (fun _ => ret wr))
              | Some wr => ret wr
              end)
             (fun wr =>
                bind (call (write_raises wr img)) (fun _ =>
                bind (emit (VideoWriter_write wr img)) (fun _ =>
                  frames_loop name fps img_stream rest (Some wr))))))
  end.

(** [png_to_mp4(group, key, name, fps)] *)
Definition png_to_mp4 (group : h5_group (h5_group bindata))
  (key name : string) (fps : Z) : Run unit :=
  bind (emit (Print_writing name)) (fun _ =>
  bind (getitem group key) (fun img_stream =>
  bind (int_keys py_int (h5_keys img_stream)) (fun pairs =>
  bind (frames_loop name fps img_stream (sorted_by_key pairs) None)
       (fun writer =>
          match writer with
          | None => raise AttributeError
          | Some wr => emit (VideoWriter_release wr)
          end)))).



End Video.

End Raising.

(** *** Observations on the traces of the video functions *)



Definition is_release (ev : event) : bool :=
  match ev with VideoWriter_release _ => true | _ => false end.

(** A parser for keys written as ASCII decimal digits, on which it
    agrees with the builtin [int].  Signs, spaces and underscores, which
    [int] accepts as well, are refused here; it is used to run the video
    functions on sample keys only. *)
Definition digit_of (c : Ascii.ascii) : option Z :=
  let n := Z.of_nat (Ascii.nat_of_ascii c) in
  if (48 <=? n) && (n <=? 57) then Some (n - 48) else None.

Fixpoint digits_value (acc : Z) (s : string) : option Z :=
  match s with
  | EmptyString => Some acc
  | String c s' =>
      match digit_of c with
      | Some d => digits_value (10 * acc + d) s'
      | None => None
      end
  end.

Definition int_of_digits (s : string) : option Z :=
  match s with
  | EmptyString => None
  | _ => digits_value 0 s
  end.

(** Two stored images of one pixel, identified with their decoding, and a
    group that holds them under the keys "10" and "9". *)
Definition img_a : image := mk_image 1 1 [(1, 2, 3)].
Definition img_b : image := mk_image 1 1 [(4, 5, 6)].

Definition sample_stream : h5_group image := [("10"%string, img_a); ("9"%string, img_b)].

Definition sample_group : h5_group (h5_group image) :=
  [("head_rgb"%string, sample_stream)].

(** A decoder that fails on the image [img_a]: with the sample stream,
    the member "9" decodes and the member "10" does not. *)
Definition decode_but_a (img : image) : exn + image :=
  match pixels img with
  | [(1, 2, 3)] => inl (Raised "OSError")
  | _ => inr img
  end.

End Recorder.

(** ** The data recorder: the class [Recorder]

    The robot environment ([StretchManipulationEnv]), the numpy operations
    on its readings and [to_pos_quat] are interfaces; what is printed and
    what the [DataWriter] is asked to do is recorded in the trace.
    [rospy.Rate] and [rate.sleep()] are not modelled. *)

Module RecorderObject.

Local Open Scope Z_scope.

Class RobotEnv : Type := {
  (** a [StretchManipulationEnv] object *)
  robot : Type;
  (** numpy arrays *)
  ndarray : Type;
  (** a camera object and the values of its attributes *)
  camera : Type;
  cam_attr : Type;
  (** the results of [get_pose], [get_gripper_state], [get_base_pose] *)
  pose_pair : Type;
  gripper_reading : Type;
  base_pose_reading : Type;
  (** [StretchManipulationEnv(init_cameras=True)] *)
  StretchManipulationEnv : robot;
  rgb_cam : robot -> camera;
  dpt_cam : robot -> camera;
  distortion_model : camera -> cam_attr;
  cam_D : camera -> cam_attr;
  cam_K : camera -> cam_attr;
  cam_R : camera -> cam_attr;
  cam_P : camera -> cam_attr;
  (** [robot.get_images(compute_xyz=True)]: [(rgb, depth, xyz)] *)
  get_images : robot -> (ndarray * ndarray * ndarray) * robot;
  (** [robot.update()]: [(q, dq)] *)
  update : robot -> (ndarray * ndarray) * robot;
  (** [robot.get_pose(frame, base_frame)] *)
  get_pose : string -> string -> robot -> pose_pair * robot;
  (** [robot.get_gripper_state(q)] *)
  get_gripper_state : ndarray -> robot -> gripper_reading * robot;
  get_base_pose : robot -> base_pose_reading * robot;
  get_camera_pose_matrix : robot -> ndarray * robot;
  (** [to_pos_quat(pose)] of [home_robot.utils.pose] *)
  to_pos_quat : pose_pair -> ndarray * ndarray;
  (** [np.concatenate((a, b))] *)
  np_concatenate : ndarray * ndarray -> ndarray;
  (** [np.array(x)] of a gripper reading and of a list of integers *)
  np_array : gripper_reading -> ndarray;
  np_array_int : list Z -> ndarray;
  (** [a * k] and [a.astype(np.uint16)] *)
  np_mul : ndarray -> Z -> ndarray;
  astype_uint16 : ndarray -> ndarray
}.

Section Object.

Context {RE : RobotEnv}.

(** The attributes of a [Recorder]; the [DataWriter] is in the trace. *)
Record Recorder : Type := mk_Recorder {
  self_robot : robot;
  self_rgb_cam : camera;
  self_dpt_cam : camera;
  idx : Z;
  _recording_started : bool;
  _filename : string
}.

(** The keyword arguments of [DataWriter.add_frame]. *)
Record frame : Type := mk_frame {
  f_q : ndarray;
  f_dq : ndarray;
  f_ee_pose : ndarray;
  f_gripper_state : ndarray;
  f_base_pose : base_pose_reading;
  f_camera_pose : ndarray;
  f_user_keyframe : ndarray;
  f_head_xyz : ndarray
}.

Inductive event : Type :=
| Print_connecting
| Print_done_connecting
| Print_ready (filename : string)
| Print_done_recording (idx : Z)
| Print_dots
| DataWriter_new (filename : string)
| Add_config (color_camera_info depth_camera_info : list (string * cam_attr))
             (task_name : string)
| Add_img_frame (head_rgb head_depth : ndarray)
| Add_frame (f : frame)
| Write_trial (idx : Z).

(** A method: from the object to the events, the value returned and the
    object afterwards. *)
Definition Method (A : Type) : Type :=
  Recorder -> list event * (A * Recorder).

Definition ret {A : Type} (a : A) : Method A := fun self => ([], (a, self)).

Definition bind {A B : Type} (m : Method A) (k : A -> Method B) : Method B :=
  fun self =>
    let '(tr, (a, self')) := m self in
    let '(tr', r) := k a self' in
    (tr ++ tr', r).

Definition emit (ev : event) : Method unit :=
  fun self => ([ev], (tt, self)).

Definition get {A : Type} (f : Recorder -> A) : Method A :=
  fun self => ([], (f self, self)).

Definition set_idx (i : Z) (r : Recorder) : Recorder :=
  mk_Recorder (self_robot r) (self_rgb_cam r) (self_dpt_cam r) i
    (_recording_started r) (_filename r).

Definition set_recording_started (b : bool) (r : Recorder) : Recorder :=
  mk_Recorder (self_robot r) (self_rgb_cam r) (self_dpt_cam r) (idx r) b
    (_filename r).

Definition set_robot (rb : robot) (r : Recorder) : Recorder :=
  mk_Recorder rb (self_rgb_cam r) (self_dpt_cam r) (idx r)
    (_recording_started r) (_filename r).

Definition modify (upd : Recorder -> Recorder) : Method unit :=
  fun self => ([], (tt, upd self)).

(** A call of a method of [self.robot]. *)
Definition robot_call {A : Type} (f : robot -> A * robot) : Method A :=
  fun self =>
    let '(a, rb) := f (self_robot self) in ([], (a, set_robot rb self)).

Notation "x <- m ;; k" := (bind m (fun x => k))
  (at level 61, m at next level, right associativity).
Notation "m ;;; k" := (bind m (fun _ => k))
  (at level 61, right associativity).

(** [Recorder(filename, start_recording)]: the events of the constructor
    and the object. *)
Definition __init__ (filename : string) (start_recording : bool)
  : list event * Recorder :=
  let rb := StretchManipulationEnv in
  ([Print_connecting; Print_done_connecting; DataWriter_new filename],
   mk_Recorder rb (rgb_cam rb) (dpt_cam rb) 0 start_recording filename).

Definition _construct_camera_info (cam : camera)
  : list (string * cam_attr) :=
  [("distortion_model"%string, distortion_model cam);
   ("D"%string, cam_D cam);
   ("K"%string, cam_K cam);
   ("R"%string, cam_R cam);
   ("P"%string, cam_P cam)].

Definition start_recording (task_name : string) : Method unit :=
  modify (set_recording_started true) ;;;
  rb <- get self_robot ;;
  let color_camera_info := _construct_camera_info (rgb_cam rb) in
  let depth_camera_info := _construct_camera_info (dpt_cam rb) in
  emit (Add_config color_camera_info depth_camera_info task_name) ;;;
  fn <- get _filename ;;
  emit (Print_ready fn).

Definition finish_recording : Method unit :=
  i <- get idx ;;
  emit (Print_done_recording i) ;;;
  i <- get idx ;;
  emit (Write_trial i) ;;;
  i <- get idx ;;
  modify (set_idx (i + 1)).

Definition save_frame (is_keyframe : bool)
  : Method (ndarray * ndarray * ndarray * ndarray) :=
  imgs <- robot_call get_images ;;
  let '(rgb, depth, xyz) := imgs in
  qdq <- robot_call update ;;
  let '(q, dq) := qdq in
  ee_pose <- robot_call (get_pose "link_straight_gripper" "base_link") ;;
  let ee_pose := to_pos_quat ee_pose in
  let ee_pose := np_concatenate ee_pose in
  g <- robot_call (get_gripper_state q) ;;
  let gripper_state := np_array g in
  base_pose <- robot_call get_base_pose ;;
  camera_pose <- robot_call get_camera_pose_matrix ;;
  let user_keyframe :=
    if is_keyframe then np_array_int [1] else np_array_int [0] in
  emit (Add_img_frame rgb (astype_uint16 (np_mul depth 10000))) ;;;
  emit (Add_frame (mk_frame q dq ee_pose gripper_state base_pose
                            camera_pose user_keyframe xyz)) ;;;
  ret (rgb, depth, q, dq).

(** One iteration of the [while] loop of [spin]. *)
Definition spin_body : Method unit :=
  started <- get _recording_started ;;
  if negb started then emit Print_dots
  else save_frame false ;;; ret tt.

Fixpoint spin_loop (n : nat) : Method unit :=
  match n with
  | O => ret tt
  | S n' => spin_body ;;; spin_loop n'
  end.

(** [spin(self, rate)] where [rospy.is_shutdown()] is false [n] times
    and true afterwards. *)
Definition spin (n : nat) : Method unit :=
  spin_loop n ;;; finish_recording.

(** *** Observations on the traces of the recorder *)

Definition is_add_frame (ev : event) : bool :=
  match ev with Add_frame _ => true | _ => false end.

Definition is_add_img_frame (ev : event) : bool :=
  match ev with Add_img_frame _ _ => true | _ => false end.

Definition is_write_trial (ev : event) : bool :=
  match ev with Write_trial _ => true | _ => false end.

(** An event that is not the storing of a frame marked by the user. *)
Definition not_user_keyframe (ev : event) : Prop :=
  match ev with
  | Add_frame f => f_user_keyframe f = np_array_int [0]
  | _ => True
  end.

(** The attributes that an update of [self.robot] leaves alone. *)
Definition same_but_robot (r r' : Recorder) : Prop :=
  idx r' = idx r /\
  _recording_started r' = _recording_started r /\
  _filename r' = _filename r.

End Object.

End RecorderObject.

(** ** Properties of the numeric primitives *)

Section NumericFacts.

Context {FR : Rounding}.


Lemma floor_unique (r : R) (z : Z) : IZR z <= r < IZR z + 1 -> floor r = z.
Proof.
  intros [Hle Hlt]. unfold floor. symmetry. apply Int_part_spec. lra.
Qed.












End NumericFacts.

(** *** The wrap in exact arithmetic *)

Section ExactFacts.

(** In exact arithmetic a heading from [- PI] (included) to [PI]
    (excluded) is left as it is. *)
Lemma wrap_heading_small (e : R) :
  - PI <= e < PI -> wrap_heading (FR := exact) e = e.
Proof.
  intros He. pose proof PI_RGT_0 as Hp.
  unfold wrap_heading, fsub, fadd, fmul, np_pi, py_mod, fmod.
  cbv [rnd exact].
  assert (Ht : trunc ((e + PI) / (2 * PI)) = 0%Z).
  { assert (Hq : 0 <= (e + PI) / (2 * PI) < 1).
    { split.
      - apply Rmult_le_pos; [lra |].
        left. apply Rinv_0_lt_compat. lra.
      - apply (Rmult_lt_reg_r (2 * PI)); [lra |].
        unfold Rdiv. rewrite Rmult_assoc, Rinv_l; lra. }
    unfold trunc. destruct (Rle_dec 0 ((e + PI) / (2 * PI))) as [_ | Hn];
      [| lra].
    apply floor_unique. simpl. lra. }
  rewrite Ht. simpl IZR.
  destruct (Req_dec_T (e + PI - 2 * PI * 0) 0) as [H0 | H0]; [lra |].
  unfold Rlt_bool.
  destruct (Rlt_dec (2 * PI) 0) as [Hb | _]; [lra |].
  destruct (Rlt_dec (e + PI - 2 * PI * 0) 0) as [Hm | _]; [lra |].
  simpl. ring.
Qed.


(** The heading [- PI / 2] is left as it is by the wrap. *)
Example wrap_heading_minus_half_PI :
  wrap_heading (FR := exact) (- PI / 2) = - PI / 2.
Proof.
  apply wrap_heading_small. pose proof PI_RGT_0. lra.
Qed.

End ExactFacts.

(** ** Properties of the controller *)

Section ControllerFacts.

Context {PA : PoseAlgebra} {VC : VelocityControl} {FR : Rounding}.

Ltac run_node :=
  unfold bind, ret, raise, emit, get, modify; simpl.

Lemma compute_error_pose_eq (s : GotoVelocityController) (g : xyt) :
  xyt_goal s = Some g ->
  _compute_error_pose s = ([Call_compute_error_pose], Ok (error_pose_of s g) s).
Proof.
  intros Hg. unfold _compute_error_pose, error_pose_of. run_node.
  destruct (odom_only s); run_node; rewrite Hg;
    destruct (track_yaw s); reflexivity.
Qed.

Lemma compute_error_pose_no_goal (s : GotoVelocityController) :
  xyt_goal s = None ->
  _compute_error_pose s = ([Call_compute_error_pose], Raise TypeError).
Proof.
  intros Hg. unfold _compute_error_pose. run_node.
  destruct (odom_only s); run_node; rewrite Hg; reflexivity.
Qed.

Lemma set_velocity_eq (v w : R) (s : GotoVelocityController) :
  _set_velocity v w s = ([Publish_cmd_vel (cmd_vel_of v w)], Ok tt s).
Proof. reflexivity. Qed.

Lemma call_control_eq (e : xyt) (s : GotoVelocityController) :
  call_control e s =
  ([Call_control e],
   Ok (fst (control_call (control s) e))
      (set_control (snd (control_call (control s) e)) s)).
Proof.
  unfold call_control. run_node.
  destruct (control_call (control s) e) as [vw c']. reflexivity.
Qed.

Lemma control_loop_body_idle (s : GotoVelocityController) :
  active s = false \/ xyt_goal s = None ->
  control_loop_body s = ([], Ok tt s).
Proof.
  intros H. unfold control_loop_body. run_node.
  destruct H as [Ha | Hg].
  - rewrite Ha. reflexivity.
  - rewrite Hg. rewrite andb_false_r. reflexivity.
Qed.

Lemma control_loop_body_tracking (s : GotoVelocityController) (g : xyt) :
  active s = true -> xyt_goal s = Some g ->
  control_loop_body s =
  (let e := error_pose_of s g in
   let r := control_call (control s) e in
   ([Call_compute_error_pose; Call_control e;
     Publish_cmd_vel (cmd_vel_of (fst (fst r)) (snd (fst r)))],
    Ok tt (set_control (snd r) s))).
Proof.
  intros Ha Hg. unfold control_loop_body.
  unfold bind at 1. unfold get at 1. unfold bind at 1. unfold get at 1.
  rewrite Ha, Hg. simpl.
  unfold bind at 1. rewrite (compute_error_pose_eq s g Hg).
  unfold bind at 1. rewrite call_control_eq.
  rewrite set_velocity_eq. reflexivity.
Qed.

(** A loop iteration never raises. *)
Lemma control_loop_body_total (s : GotoVelocityController) :
  exists tr s', control_loop_body s = (tr, Ok tt s').
Proof.
  destruct (active s) eqn:Ha; [destruct (xyt_goal s) as [g|] eqn:Hg |].
  - rewrite (control_loop_body_tracking s g Ha Hg). simpl. eauto.
  - rewrite control_loop_body_idle by auto. eauto.
  - rewrite control_loop_body_idle by auto. eauto.
Qed.

(** *** Callbacks and services as state updates *)

Lemma pose_update_callback_eq (msg : PoseStamped) (s : GotoVelocityController) :
  _pose_update_callback msg s =
  ([], Ok tt (set_xyt_loc
                (sophus2xyt (SE3_of_matrix (matrix_from_pose_msg (ps_pose msg))))
                s)).
Proof. reflexivity. Qed.

Lemma odom_update_callback_eq (msg : Odometry) (s : GotoVelocityController) :
  _odom_update_callback msg s =
  ([], Ok tt (set_xyt_loc_odom
                (sophus2xyt
                   (SE3_of_matrix (matrix_from_pose_msg (pwc_pose (od_pose msg)))))
                s)).
Proof. reflexivity. Qed.

Lemma goal_update_callback_eq (msg : Pose) (s : GotoVelocityController) :
  _goal_update_callback msg s =
  ([Publish_goal_abs
      (SE3_matrix
         (SE3_mul
            (SE3_mul (xyt2sophus (xyt_loc s))
                     (SE3_inverse (xyt2sophus (xyt_loc_odom s))))
            (SE3_of_matrix (matrix_from_pose_msg msg))))],
   Ok tt (set_xyt_goal
            (Some (sophus2xyt (SE3_of_matrix (matrix_from_pose_msg msg)))) s)).
Proof. reflexivity. Qed.

Lemma enable_service_eq (request : TriggerRequest) (s : GotoVelocityController) :
  _enable_service request s =
  ([], Ok (mk_TriggerResponse true "Goto controller is now RUNNING")
          (set_active true s)).
Proof. reflexivity. Qed.

Lemma disable_service_eq (request : TriggerRequest) (s : GotoVelocityController) :
  _disable_service request s =
  ([], Ok (mk_TriggerResponse true "Goto controller is now STOPPED")
          (set_active false s)).
Proof. reflexivity. Qed.

Lemma set_yaw_tracking_service_eq (request : SetBool) (s : GotoVelocityController) :
  _set_yaw_tracking_service request s =
  ([], Ok (mk_SetBoolResponse true
             (if data request
              then "Yaw tracking is now ON"
              else "Yaw tracking is now OFF"))
          (set_track_yaw (data request) s)).
Proof.
  unfold _set_yaw_tracking_service. run_node.
  destruct (data request); reflexivity.
Qed.

(** Assigning an attribute its current value leaves the object as it is. *)
Lemma set_active_same (s : GotoVelocityController) :
  set_active (active s) s = s.
Proof. destruct s; reflexivity. Qed.

Lemma set_track_yaw_same (s : GotoVelocityController) :
  set_track_yaw (track_yaw s) s = s.
Proof. destruct s; reflexivity. Qed.

(** *** Runs of the node *)

(** Every input is handled without an exception. *)
Lemma dispatch_total (i : Input) (s : GotoVelocityController) :
  exists tr s', dispatch i s = (tr, Ok tt s').
Proof.
  destruct i; simpl.
  - rewrite pose_update_callback_eq; eauto.
  - rewrite odom_update_callback_eq; eauto.
  - rewrite goal_update_callback_eq; eauto.
  - unfold bind. rewrite enable_service_eq. simpl. eauto.
  - unfold bind. rewrite disable_service_eq. simpl. eauto.
  - unfold bind. rewrite set_yaw_tracking_service_eq. simpl. eauto.
  - apply control_loop_body_total.
Qed.

(** No input changes the feedback selection. *)
Lemma dispatch_odom_only (i : Input) (s s' : GotoVelocityController)
  (tr : list Event) :
  dispatch i s = (tr, Ok tt s') -> odom_only s' = odom_only s.
Proof.
  destruct i; simpl.
  - rewrite pose_update_callback_eq. intros H; inversion H; reflexivity.
  - rewrite odom_update_callback_eq. intros H; inversion H; reflexivity.
  - rewrite goal_update_callback_eq. intros H; inversion H; reflexivity.
  - unfold bind. rewrite enable_service_eq. simpl.
    intros H; inversion H; reflexivity.
  - unfold bind. rewrite disable_service_eq. simpl.
    intros H; inversion H; reflexivity.
  - unfold bind. rewrite set_yaw_tracking_service_eq. simpl.
    intros H; inversion H; reflexivity.
  - destruct (active s) eqn:Ha; [destruct (xyt_goal s) as [g|] eqn:Hg |].
    + rewrite (control_loop_body_tracking s g Ha Hg). simpl.
      intros H; inversion H; reflexivity.
    + rewrite control_loop_body_idle by auto.
      intros H; inversion H; reflexivity.
    + rewrite control_loop_body_idle by auto.
      intros H; inversion H; reflexivity.
Qed.

Lemma run_cons (i : Input) (rest : list Input) (s : GotoVelocityController) :
  run (i :: rest) s =
  match dispatch i s with
  | (tr, Ok _ s') => let '(tr', r) := run rest s' in (tr ++ tr', r)
  | (tr, Raise e) => (tr, Raise e)
  end.
Proof. reflexivity. Qed.

(** The node handles every schedule without an exception. *)
Lemma run_total (sched : list Input) (s : GotoVelocityController) :
  exists tr s', run sched s = (tr, Ok tt s').
Proof.
  revert s. induction sched as [| i rest IH]; intros s.
  - simpl. unfold ret. eauto.
  - rewrite run_cons.
    destruct (dispatch_total i s) as (tr & s1 & Hd). rewrite Hd.
    destruct (IH s1) as (tr' & s' & Hr). rewrite Hr. eauto.
Qed.

Lemma run_odom_only (sched : list Input) (s s' : GotoVelocityController)
  (tr : list Event) :
  run sched s = (tr, Ok tt s') -> odom_only s' = odom_only s.
Proof.
  revert s tr. induction sched as [| i rest IH]; intros s tr.
  - simpl. unfold ret. intros H; inversion H; reflexivity.
  - rewrite run_cons.
    destruct (dispatch_total i s) as (tr1 & s1 & Hd). rewrite Hd.
    destruct (run rest s1) as [tr2 r] eqn:Hr.
    intros H; inversion H; subst.
    rewrite (IH _ _ Hr). apply (dispatch_odom_only _ _ _ _ Hd).
Qed.

(** Idle iterations of the loop, one after the other. *)
Lemma run_control_loop_idle (n : nat) (s : GotoVelocityController) :
  active s = false \/ xyt_goal s = None ->
  _run_control_loop n s = ([], Ok tt s).
Proof.
  intros H. induction n as [| n IH]; simpl.
  - reflexivity.
  - unfold bind. rewrite (control_loop_body_idle s H). rewrite IH. reflexivity.
Qed.

End ControllerFacts.

(** ** The specified behaviour *)

Section ControllerClaims.

Context {PA : PoseAlgebra} {VC : VelocityControl} {FR : Rounding}.


(** C2: on a loop iteration at which [active] is false or no goal is set,
    the object is left as it is and the trace is empty: no call of the
    error computation, no call of the control law, nothing published.  The
    same holds for any number of such iterations in a row. *)
Theorem idle_emits_nothing (s : GotoVelocityController) (n : nat) :
  active s = false \/ xyt_goal s = None ->
  control_loop_body s = ([], Ok tt s) /\
  _run_control_loop n s = ([], Ok tt s).
Proof.
  intros H. split.
  - apply control_loop_body_idle; assumption.
  - apply run_control_loop_idle; assumption.
Qed.

(** C3: with yaw tracking off, the error pose returned by
    [_compute_error_pose] has heading component exactly [0], whatever the
    goal and feedback headings; on a tracking iteration it is this error
    pose that the control law is called with. *)
Theorem yaw_gate (s : GotoVelocityController) (g : xyt) :
  xyt_goal s = Some g ->
  track_yaw s = false ->
  exists e,
    _compute_error_pose s = ([Call_compute_error_pose], Ok e s) /\
    xyt_2 e = 0 /\
    (active s = true ->
     exists tr s',
       control_loop_body s =
       (Call_compute_error_pose :: Call_control e :: tr, Ok tt s')).
Proof.
  intros Hg Hty. exists (error_pose_of s g). split; [| split].
  - apply compute_error_pose_eq; assumption.
  - unfold error_pose_of. rewrite Hty. reflexivity.
  - intros Ha. rewrite (control_loop_body_tracking s g Ha Hg). simpl. eauto.
Qed.

(** C4: an object built with [odom_only_feedback = b] has [odom_only = b];
    no run of the node changes [odom_only]; and on a tracking iteration in
    a state reached by a run, the control law is called with the error of
    the goal against [xyt_loc_odom] when the run started with [odom_only]
    true, and against [xyt_loc] otherwise. *)
Theorem feedback_pose_selection
  (s s' : GotoVelocityController) (sched : list Input) (tr : list Event)
  (g : xyt) :
  run sched s = (tr, Ok tt s') ->
  active s' = true ->
  xyt_goal s' = Some g ->
  (forall h b, odom_only (__init__ h b) = b) /\
  odom_only s' = odom_only s /\
  exists tr' c',
    control_loop_body s' =
    (let fb := if odom_only s then xyt_loc_odom s' else xyt_loc s' in
     let xyt_err := xyt_global_to_base g fb in
     let e :=
       if track_yaw s'
       then set_xyt_2 (wrap_heading (xyt_2 xyt_err)) xyt_err
       else set_xyt_2 0 xyt_err in
     (Call_compute_error_pose :: Call_control e :: tr',
      Ok tt (set_control c' s'))).
Proof.
  intros Hrun Ha Hg.
  pose proof (run_odom_only _ _ _ _ Hrun) as Hoo.
  split; [reflexivity | split; [assumption |]].
  rewrite (control_loop_body_tracking s' g Ha Hg).
  unfold error_pose_of. rewrite Hoo. simpl. eauto.
Qed.

(** C5: [_disable_service] returns a response with [success = True], sets
    [active] to false and leaves every other attribute (the goal, both
    pose estimates, [track_yaw], the control law object, [hz],
    [odom_only]) as it was; called with [active] already false it leaves
    the object unchanged, and a second call changes nothing more. *)
Theorem disable_service_frame
  (request : TriggerRequest) (s : GotoVelocityController) :
  exists resp s',
    _disable_service request s = ([], Ok resp s') /\
    tr_success resp = true /\
    active s' = false /\
    xyt_goal s' = xyt_goal s /\
    xyt_loc s' = xyt_loc s /\
    xyt_loc_odom s' = xyt_loc_odom s /\
    track_yaw s' = track_yaw s /\
    control s' = control s /\
    hz s' = hz s /\
    odom_only s' = odom_only s /\
    (active s = false -> s' = s) /\
    _disable_service request s' = ([], Ok resp s').
Proof.
  exists (mk_TriggerResponse true "Goto controller is now STOPPED").
  exists (set_active false s).
  rewrite !disable_service_eq.
  repeat (split; [reflexivity |]).
  split; [| reflexivity].
  intros Ha. rewrite <- Ha. apply set_active_same.
Qed.

(** C6: [_enable_service] returns a response with [success = True] and a
    message and sets [active] to true, whatever [active] was; a second
    call returns the same response and leaves the object, with [active]
    true, as the first call left it. *)
Theorem enable_service_idempotent
  (request1 request2 : TriggerRequest) (s : GotoVelocityController) :
  exists resp s',
    _enable_service request1 s = ([], Ok resp s') /\
    tr_success resp = true /\
    tr_message resp = "Goto controller is now RUNNING"%string /\
    active s' = true /\
    _enable_service request2 s' = ([], Ok resp s').
Proof.
  exists (mk_TriggerResponse true "Goto controller is now RUNNING").
  exists (set_active true s).
  rewrite !enable_service_eq.
  repeat (split; [reflexivity |]). reflexivity.
Qed.

(** C7: each of the three services returns a response with
    [success = True], for every request and object;
    [_set_yaw_tracking_service] sets [track_yaw] to the request's flag and
    answers "Yaw tracking is now ON" for true and "Yaw tracking is now OFF"
    for false. *)
Theorem services_always_succeed
  (trigger : TriggerRequest) (request : SetBool)
  (s : GotoVelocityController) :
  (exists resp s',
     _enable_service trigger s = ([], Ok resp s') /\ tr_success resp = true) /\
  (exists resp s',
     _disable_service trigger s = ([], Ok resp s') /\
     tr_success resp = true) /\
  (exists resp s',
     _set_yaw_tracking_service request s = ([], Ok resp s') /\
     sb_success resp = true /\
     track_yaw s' = data request /\
     sb_message resp =
       (if data request
        then "Yaw tracking is now ON"
        else "Yaw tracking is now OFF")%string).
Proof.
  split; [| split].
  - rewrite enable_service_eq. eauto.
  - rewrite disable_service_eq. eauto.
  - rewrite set_yaw_tracking_service_eq.
    do 2 eexists. split; [reflexivity |]. repeat split.
Qed.

(** C8: [_set_yaw_tracking_service] leaves [active] unchanged, and
    [_enable_service] and [_disable_service] leave [track_yaw]
    unchanged. *)
Theorem mode_flags_independent
  (trigger : TriggerRequest) (request : SetBool)
  (s : GotoVelocityController) :
  (exists resp s',
     _set_yaw_tracking_service request s = ([], Ok resp s') /\
     active s' = active s) /\
  (exists resp s',
     _enable_service trigger s = ([], Ok resp s') /\
     track_yaw s' = track_yaw s) /\
  (exists resp s',
     _disable_service trigger s = ([], Ok resp s') /\
     track_yaw s' = track_yaw s).
Proof.
  split; [| split].
  - rewrite set_yaw_tracking_service_eq. eauto.
  - rewrite enable_service_eq. eauto.
  - rewrite disable_service_eq. eauto.
Qed.

(** C10: [_goal_update_callback] stores the planar conversion of the
    received pose, [sophus2xyt (SE3 (matrix_from_pose_msg msg))], as the
    goal.  The stored value does not depend on the object it is stored in
    (on [odom_only], on [active] or on the pose estimates); every other
    attribute is left as it was, and the only event is the message of the
    goal visualizer. *)
Theorem goal_update_stores_message_pose
  (msg : Pose) (s : GotoVelocityController) :
  exists m s',
    _goal_update_callback msg s = ([Publish_goal_abs m], Ok tt s') /\
    xyt_goal s' = Some (sophus2xyt (SE3_of_matrix (matrix_from_pose_msg msg))) /\
    hz s' = hz s /\
    odom_only s' = odom_only s /\
    control s' = control s /\
    xyt_loc s' = xyt_loc s /\
    xyt_loc_odom s' = xyt_loc_odom s /\
    active s' = active s /\
    track_yaw s' = track_yaw s /\
    forall s2, exists m2 s2',
      _goal_update_callback msg s2 = ([Publish_goal_abs m2], Ok tt s2') /\
      xyt_goal s2' = xyt_goal s'.
Proof.
  rewrite goal_update_callback_eq. do 2 eexists.
  split; [reflexivity |].
  repeat (split; [reflexivity |]).
  intros s2. rewrite goal_update_callback_eq. eauto.
Qed.

End ControllerClaims.

(** ** The controller on the planar pose algebra *)

Section PlanarRuns.

(** The feedback pose [(0, 0, 0)] and the goal [(1, 0, 0)] give the error
    pose [(1, 0, 0)]. *)
Example error_pose_forward :
  error_pose_of
    (set_xyt_goal (Some (mk_xyt 1 0 0)) Planar.controller0) (mk_xyt 1 0 0)
  = mk_xyt 1 0 0.
Proof.
  change (set_xyt_2 (wrap_heading (FR := exact) (0 - 0))
            (mk_xyt (cos 0 * (1 - 0) + sin 0 * (0 - 0))
                    (- sin 0 * (1 - 0) + cos 0 * (0 - 0))
                    (0 - 0))
          = mk_xyt 1 0 0).
  replace (0 - 0) with 0 by ring.
  rewrite wrap_heading_small by (pose proof PI_RGT_0; lra).
  unfold set_xyt_2. cbn [xyt_0 xyt_1].
  rewrite cos_0, sin_0. f_equal; ring.
Qed.

(** The feedback pose [(0, 0, PI / 2)] and the goal [(0, 0, 0)] give the
    heading error [- PI / 2]. *)
Example error_pose_quarter_turn :
  xyt_2 (error_pose_of
           (set_xyt_loc_odom (mk_xyt 0 0 (PI / 2))
              (set_xyt_goal (Some (mk_xyt 0 0 0)) Planar.controller0))
           (mk_xyt 0 0 0))
  = - PI / 2.
Proof.
  change (wrap_heading (FR := exact) (0 - PI / 2) = - PI / 2).
  replace (0 - PI / 2) with (- PI / 2) by field.
  apply wrap_heading_minus_half_PI.
Qed.



(** [idle_emits_nothing] at the controller as built, for three
    iterations. *)
Lemma idle_emits_nothing_witness :
  (active Planar.controller0 = false \/ xyt_goal Planar.controller0 = None) /\
  control_loop_body Planar.controller0 = ([], Ok tt Planar.controller0) /\
  _run_control_loop 3 Planar.controller0 = ([], Ok tt Planar.controller0).
Proof.
  split; [left; reflexivity |].
  apply (idle_emits_nothing Planar.controller0 3). left; reflexivity.
Defined.

(** [yaw_gate] at the goal heading [PI] and the feedback heading [0]. *)
Lemma yaw_gate_witness :
  xyt_goal Planar.controller_noyaw = Some (mk_xyt 0 0 PI) /\
  track_yaw Planar.controller_noyaw = false /\
  exists e,
    _compute_error_pose Planar.controller_noyaw
    = ([Call_compute_error_pose], Ok e Planar.controller_noyaw) /\
    xyt_2 e = 0 /\
    (active Planar.controller_noyaw = true ->
     exists tr s',
       control_loop_body Planar.controller_noyaw =
       (Call_compute_error_pose :: Call_control e :: tr, Ok tt s')).
Proof.
  split; [reflexivity | split; [reflexivity |]].
  apply (yaw_gate Planar.controller_noyaw (mk_xyt 0 0 PI)); reflexivity.
Defined.

(** [feedback_pose_selection] after a goal message and a call of the
    enable service on the controller as built. *)
Lemma feedback_pose_selection_witness :
  run Planar.sched_goal_enable Planar.controller0
  = (fst (run Planar.sched_goal_enable Planar.controller0),
     Ok tt Planar.controller_tracking) /\
  active Planar.controller_tracking = true /\
  xyt_goal Planar.controller_tracking = Some Planar.goal_1_0 /\
  (forall h b, odom_only (__init__ h b) = b) /\
  odom_only Planar.controller_tracking = odom_only Planar.controller0 /\
  exists tr' c',
    control_loop_body Planar.controller_tracking =
    (let fb :=
       if odom_only Planar.controller0
       then xyt_loc_odom Planar.controller_tracking
       else xyt_loc Planar.controller_tracking in
     let xyt_err := xyt_global_to_base Planar.goal_1_0 fb in
     let e :=
       if track_yaw Planar.controller_tracking
       then set_xyt_2 (wrap_heading (xyt_2 xyt_err)) xyt_err
       else set_xyt_2 0 xyt_err in
     (Call_compute_error_pose :: Call_control e :: tr',
      Ok tt (set_control c' Planar.controller_tracking))).
Proof.
  split; [reflexivity | split; [reflexivity | split; [reflexivity |]]].
  apply (feedback_pose_selection
           Planar.controller0 Planar.controller_tracking
           Planar.sched_goal_enable
           (fst (run Planar.sched_goal_enable Planar.controller0))
           Planar.goal_1_0);
    reflexivity.
Defined.

End PlanarRuns.

(** ** Runs of the node, step by step *)

Section RunFacts.

Context {PA : PoseAlgebra} {VC : VelocityControl} {FR : Rounding}.

(** What handling one input does to the object and to the trace. *)
Lemma dispatch_spec (i : Input) (s : GotoVelocityController) :
  exists tr s',
    dispatch i s = (tr, Ok tt s') /\
    match i with
    | In_pose msg =>
        tr = [] /\
        s' = set_xyt_loc
               (sophus2xyt (SE3_of_matrix (matrix_from_pose_msg (ps_pose msg))))
               s
    | In_odom msg =>
        tr = [] /\
        s' = set_xyt_loc_odom
               (sophus2xyt
                  (SE3_of_matrix
                     (matrix_from_pose_msg (pwc_pose (od_pose msg)))))
               s
    | In_goal msg =>
        (exists m, tr = [Publish_goal_abs m]) /\
        s' = set_xyt_goal
               (Some (sophus2xyt (SE3_of_matrix (matrix_from_pose_msg msg)))) s
    | In_enable _ => tr = [] /\ s' = set_active true s
    | In_disable _ => tr = [] /\ s' = set_active false s
    | In_set_yaw_tracking request =>
        tr = [] /\ s' = set_track_yaw (data request) s
    | In_tick =>
        ((active s = false \/ xyt_goal s = None) /\ tr = [] /\ s' = s) \/
        (exists g,
           active s = true /\ xyt_goal s = Some g /\
           let r := control_call (control s) (error_pose_of s g) in
           tr = [Call_compute_error_pose; Call_control (error_pose_of s g);
                 Publish_cmd_vel (cmd_vel_of (fst (fst r)) (snd (fst r)))] /\
           s' = set_control (snd r) s)
    end.
Proof.
  destruct i; simpl dispatch.
  - rewrite pose_update_callback_eq. eauto.
  - rewrite odom_update_callback_eq. eauto.
  - rewrite goal_update_callback_eq. eauto 6.
  - unfold bind. rewrite enable_service_eq. simpl. eauto.
  - unfold bind. rewrite disable_service_eq. simpl. eauto.
  - unfold bind. rewrite set_yaw_tracking_service_eq. simpl. eauto.
  - destruct (active s) eqn:Ha; [destruct (xyt_goal s) as [g|] eqn:Hg |].
    + rewrite (control_loop_body_tracking s g Ha Hg). simpl.
      do 2 eexists. split; [reflexivity |]. right. exists g. auto.
    + rewrite control_loop_body_idle by auto. eauto 8.
    + rewrite control_loop_body_idle by auto. eauto 8.
Qed.

(** A run of a schedule in two parts. *)
Lemma run_app (a b : list Input) (s : GotoVelocityController) :
  run (a ++ b) s =
  match run a s with
  | (tr, Ok _ s') => let '(tr', r) := run b s' in (tr ++ tr', r)
  | (tr, Raise e) => (tr, Raise e)
  end.
Proof.
  revert s. induction a as [| i a IH]; intros s.
  - simpl. unfold ret. destruct (run b s). reflexivity.
  - rewrite <- app_comm_cons, !run_cons.
    destruct (dispatch i s) as [tr [[] s1 | e]]; [| reflexivity].
    rewrite IH. destruct (run a s1) as [tr1 [[] s2 | e]].
    + destruct (run b s2) as [tr2 r]. rewrite app_assoc. reflexivity.
    + reflexivity.
Qed.

(** Induction over the steps of a run: a property of the object kept by
    every input of the schedule, and a property of traces kept by
    concatenation. *)
Lemma run_invariant
  (R : Input -> Prop) (P : GotoVelocityController -> Prop)
  (Q : list Event -> Prop) :
  Q [] ->
  (forall a b, Q a -> Q b -> Q (a ++ b)) ->
  (forall i s tr s',
     R i -> P s -> dispatch i s = (tr, Ok tt s') -> P s' /\ Q tr) ->
  forall sched s,
    Forall R sched -> P s ->
    exists tr s', run sched s = (tr, Ok tt s') /\ P s' /\ Q tr.
Proof.
  intros Qnil Qapp Hstep sched.
  induction sched as [| i rest IH]; intros s HR HP.
  - simpl. unfold ret. eauto.
  - inversion HR as [| ? ? Hi Hrest]; subst.
    rewrite run_cons.
    destruct (dispatch_total i s) as (tr1 & s1 & Hd). rewrite Hd.
    destruct (Hstep _ _ _ _ Hi HP Hd) as [HP1 HQ1].
    destruct (IH s1 Hrest HP1) as (tr2 & s2 & Hr & HP2 & HQ2).
    rewrite Hr. eauto 6.
Qed.

Lemma count_app {A : Type} (p : A -> bool) (a b : list A) :
  count p (a ++ b) = (count p a + count p b)%nat.
Proof.
  unfold count. rewrite filter_app. apply length_app.
Qed.

End RunFacts.

(** ** Further properties of the controller *)

Section ControllerExtras.

Context {PA : PoseAlgebra} {VC : VelocityControl} {FR : Rounding}.

(** X1: the heading policy of [_compute_error_pose] leaves the position
    components returned by [xyt_global_to_base] as they are, with yaw
    tracking on and with yaw tracking off. *)
Theorem error_pose_components (s : GotoVelocityController) (g : xyt) :
  xyt_goal s = Some g ->
  exists e,
    _compute_error_pose s = ([Call_compute_error_pose], Ok e s) /\
    xyt_0 e =
      xyt_0 (xyt_global_to_base g
               (if odom_only s then xyt_loc_odom s else xyt_loc s)) /\
    xyt_1 e =
      xyt_1 (xyt_global_to_base g
               (if odom_only s then xyt_loc_odom s else xyt_loc s)).
Proof.
  intros Hg.
  exists (error_pose_of s g).
  split; [apply compute_error_pose_eq; assumption |].
  unfold error_pose_of.
  destruct (track_yaw s); simpl; split; reflexivity.
Qed.

(** X3: [_run_control_loop] never raises and never changes an attribute
    other than the control law object: whatever the number of iterations,
    it does not deactivate the controller, clear the goal, or touch the
    pose estimates or the flags. *)
Theorem run_control_loop_frame (n : nat) (s : GotoVelocityController) :
  exists tr s',
    _run_control_loop n s = (tr, Ok tt s') /\
    hz s' = hz s /\
    odom_only s' = odom_only s /\
    xyt_loc s' = xyt_loc s /\
    xyt_loc_odom s' = xyt_loc_odom s /\
    xyt_goal s' = xyt_goal s /\
    active s' = active s /\
    track_yaw s' = track_yaw s.
Proof.
  revert s. induction n as [| n IH]; intros s.
  - simpl. unfold ret. do 2 eexists. split; [reflexivity |]. tauto.
  - simpl. unfold bind.
    destruct (dispatch_spec In_tick s) as (tr1 & s1 & Hd & Hs).
    simpl in Hd. rewrite Hd.
    destruct (IH s1) as (tr2 & s2 & Hr & H).
    rewrite Hr. do 2 eexists. split; [reflexivity |].
    destruct Hs as [(_ & _ & ->) | (g & _ & _ & _ & ->)]; simpl in H; exact H.
Qed.

(** X4: every command that a run of the node publishes on [cmd_vel] is a
    differential-drive command: [linear.y], [linear.z], [angular.x] and
    [angular.y] are zero. *)
Theorem run_commands_planar
  (sched : list Input) (s : GotoVelocityController) :
  exists tr s',
    run sched s = (tr, Ok tt s') /\
    Forall (fun ev => forall cmd, ev = Publish_cmd_vel cmd -> planar_cmd cmd)
           tr.
Proof.
  destruct (run_invariant (fun _ => True) (fun _ => True)
              (Forall (fun ev =>
                 forall cmd, ev = Publish_cmd_vel cmd -> planar_cmd cmd)))
    with (sched := sched) (s := s) as (tr & s' & Hr & _ & HQ).
  - constructor.
  - intros a b Ha Hb. apply Forall_app; auto.
  - intros i s0 tr s1 _ _ Hd. split; [exact I |].
    destruct (dispatch_spec i s0) as (tr' & s1' & Hd' & Hs).
    rewrite Hd in Hd'. inversion Hd'; subst tr' s1'. clear Hd'.
    destruct i;
      try (destruct Hs as [-> _]; apply Forall_nil).
    + destruct Hs as [[m ->] _].
      apply Forall_cons; [discriminate | apply Forall_nil].
    + destruct Hs as [(_ & -> & _) | (g & _ & _ & -> & _)].
      * apply Forall_nil.
      * apply Forall_cons; [discriminate |].
        apply Forall_cons; [discriminate |].
        apply Forall_cons; [| apply Forall_nil].
        intros cmd Hc. inversion Hc; subst cmd.
        unfold planar_cmd, cmd_vel_of. simpl. auto.
  - apply Forall_forall. auto.
  - exact I.
  - eauto.
Qed.

(** X5: in every run of the node, the commands published, the calls of
    the control law and the calls of the error computation are equal in
    number, and there are at most as many as loop iterations in the
    schedule. *)
Theorem run_one_command_per_tick
  (sched : list Input) (s : GotoVelocityController) :
  exists tr s',
    run sched s = (tr, Ok tt s') /\
    count is_cmd_vel tr = count is_call_control tr /\
    count is_call_control tr = count is_call_compute_error_pose tr /\
    (count is_cmd_vel tr <= count is_tick sched)%nat.
Proof.
  revert s. induction sched as [| i rest IH]; intros s.
  - simpl. unfold ret. do 2 eexists. split; [reflexivity |].
    repeat split. apply le_n.
  - rewrite run_cons.
    destruct (dispatch_spec i s) as (tr1 & s1 & Hd & Hs). rewrite Hd.
    destruct (IH s1) as (tr2 & s2 & Hr & H1 & H2 & H3). rewrite Hr.
    do 2 eexists. split; [reflexivity |].
    rewrite !count_app, H1, H2.
    assert (Hstep :
      count is_cmd_vel tr1 = count is_call_control tr1 /\
      count is_call_control tr1 = count is_call_compute_error_pose tr1 /\
      (count is_cmd_vel tr1 <= count is_tick [i])%nat).
    { destruct i;
        try (destruct Hs as [-> _]; repeat split; apply Nat.le_0_l).
      - destruct Hs as [[m ->] _]. repeat split. apply Nat.le_0_l.
      - destruct Hs as [(_ & -> & _) | (g & _ & _ & -> & _)].
        + repeat split. apply Nat.le_0_l.
        + repeat split. apply le_n. }
    destruct Hstep as (E1 & E2 & E3).
    change (i :: rest) with ([i] ++ rest). rewrite count_app.
    rewrite E1 in *. rewrite E2 in *. rewrite H1, H2 in H3.
    repeat split.
    apply Nat.add_le_mono; assumption.
Qed.

(** A schedule without a goal message leaves the goal as it is. *)
Lemma run_keeps_goal (sched : list Input) (s : GotoVelocityController) :
  Forall (fun i => is_goal_input i = false) sched ->
  exists tr s', run sched s = (tr, Ok tt s') /\ xyt_goal s' = xyt_goal s.
Proof.
  intros HR.
  destruct (run_invariant (fun i => is_goal_input i = false)
              (fun s0 => xyt_goal s0 = xyt_goal s) (fun _ => True))
    with (sched := sched) (s := s) as (tr & s' & Hr & HP & _); auto.
  - intros i s0 tr s1 Hi HP Hd. split; [| exact I].
    destruct (dispatch_spec i s0) as (tr' & s1' & Hd' & Hs).
    rewrite Hd in Hd'. inversion Hd'; subst tr' s1'. clear Hd'.
    destruct i; try discriminate;
      try (destruct Hs as [_ ->]; exact HP).
    destruct Hs as [(_ & _ & ->) | (g & _ & _ & _ & ->)]; exact HP.
  - eauto.
Qed.

(** X6: no command is published and the control law is neither called nor
    changed by a run in which the controller starts inactive and is not
    enabled, or starts without a goal and receives none, or in which the
    loop does not iterate.  In particular disabling publishes no stop
    command. *)
Theorem no_command_without_enable_goal_tick
  (sched : list Input) (s : GotoVelocityController) :
  (active s = false /\ Forall (fun i => is_enable_input i = false) sched) \/
  (xyt_goal s = None /\ Forall (fun i => is_goal_input i = false) sched) \/
  Forall (fun i => is_tick i = false) sched ->
  exists tr s',
    run sched s = (tr, Ok tt s') /\
    count is_cmd_vel tr = O /\
    count is_call_control tr = O /\
    control s' = control s.
Proof.
  pose (Q := fun tr : list Event =>
               count is_cmd_vel tr = O /\ count is_call_control tr = O).
  assert (Qnil : Q []) by (split; reflexivity).
  assert (Qapp : forall a b, Q a -> Q b -> Q (a ++ b)).
  { intros a b [A1 A2] [B1 B2]. unfold Q.
    rewrite !count_app, A1, A2, B1, B2. auto. }
  intros [[Ha HR] | [[Hg HR] | HR]].
  - destruct (run_invariant (fun i => is_enable_input i = false)
                (fun s0 => active s0 = false /\ control s0 = control s) Q)
      with (sched := sched) (s := s) as (tr & s' & Hr & [_ HP] & [H1 H2]);
      auto.
    + intros i s0 tr s1 Hi [HA HC] Hd.
      destruct (dispatch_spec i s0) as (tr' & s1' & Hd' & Hs).
      rewrite Hd in Hd'. inversion Hd'; subst tr' s1'. clear Hd'.
      destruct i; try discriminate;
        try (destruct Hs as [-> ->]; simpl; auto).
      * destruct Hs as [[m ->] ->]. simpl. split; auto.
      * destruct Hs as [(_ & -> & ->) | (g & Hact & _)]; [auto | congruence].
    + eauto 8.
  - destruct (run_invariant (fun i => is_goal_input i = false)
                (fun s0 => xyt_goal s0 = None /\ control s0 = control s) Q)
      with (sched := sched) (s := s) as (tr & s' & Hr & [_ HP] & [H1 H2]);
      auto.
    + intros i s0 tr s1 Hi [HG HC] Hd.
      destruct (dispatch_spec i s0) as (tr' & s1' & Hd' & Hs).
      rewrite Hd in Hd'. inversion Hd'; subst tr' s1'. clear Hd'.
      destruct i; try discriminate;
        try (destruct Hs as [-> ->]; simpl; auto).
      destruct Hs as [(_ & -> & ->) | (g & _ & Hgoal & _)];
        [auto | congruence].
    + eauto 8.
  - destruct (run_invariant (fun i => is_tick i = false)
                (fun s0 => control s0 = control s) Q)
      with (sched := sched) (s := s) as (tr & s' & Hr & HP & [H1 H2]);
      auto.
    + intros i s0 tr s1 Hi HC Hd.
      destruct (dispatch_spec i s0) as (tr' & s1' & Hd' & Hs).
      rewrite Hd in Hd'. inversion Hd'; subst tr' s1'. clear Hd'.
      destruct i; try discriminate;
        try (destruct Hs as [-> ->]; simpl; auto).
      destruct Hs as [[m ->] ->]. simpl. split; auto.
    + eauto 8.
Qed.

(** X7: no run of the node clears the goal: once a goal is set, a goal is
    set after every schedule, and it is the same goal when the schedule
    holds no goal message (disabling does not clear it). *)
Theorem goal_never_cleared
  (sched : list Input) (s : GotoVelocityController) (g : xyt) :
  xyt_goal s = Some g ->
  exists tr s' g',
    run sched s = (tr, Ok tt s') /\
    xyt_goal s' = Some g' /\
    (Forall (fun i => is_goal_input i = false) sched -> g' = g).
Proof.
  intros Hg.
  destruct (run_invariant (fun _ => True)
              (fun s0 => exists g0, xyt_goal s0 = Some g0) (fun _ => True))
    with (sched := sched) (s := s) as (tr & s' & Hr & [g' HP] & _); auto.
  - intros i s0 tr s1 _ [g0 HP] Hd. split; [| exact I].
    destruct (dispatch_spec i s0) as (tr' & s1' & Hd' & Hs).
    rewrite Hd in Hd'. inversion Hd'; subst tr' s1'. clear Hd'.
    destruct i; try (destruct Hs as [_ ->]; simpl; eauto).
    destruct Hs as [(_ & _ & ->) | (g1 & _ & _ & _ & ->)]; simpl; eauto.
  - apply Forall_forall. auto.
  - eauto.
  - exists tr, s', g'. split; [assumption | split; [assumption |]].
    intros HR.
    destruct (run_keeps_goal sched s HR) as (tr2 & s2 & Hr2 & Hk).
    rewrite Hr in Hr2. inversion Hr2; subst s2.
    rewrite HP, Hg in Hk. congruence.
Qed.

(** X8: after a run, the goal is the planar conversion of the last goal
    message of the schedule, whatever came before it and whatever other
    inputs came after it. *)
Theorem last_goal_wins
  (before after : list Input) (msg : Pose) (s : GotoVelocityController) :
  Forall (fun i => is_goal_input i = false) after ->
  exists tr s',
    run (before ++ In_goal msg :: after) s = (tr, Ok tt s') /\
    xyt_goal s' =
      Some (sophus2xyt (SE3_of_matrix (matrix_from_pose_msg msg))).
Proof.
  intros HR. rewrite run_app.
  destruct (run_total before s) as (tr1 & s1 & Hr1). rewrite Hr1.
  rewrite run_cons. simpl dispatch. rewrite goal_update_callback_eq.
  match goal with
  | |- context [run after ?s2] =>
      destruct (run_keeps_goal after s2 HR) as (tr3 & s3 & Hr3 & Hk)
  end.
  rewrite Hr3. do 2 eexists. split; [reflexivity | exact Hk].
Qed.

(** X9: the pose estimate that is not selected as feedback does not
    enter the error: with [odom_only] true a localization message, and
    with [odom_only] false an odometry message, handled before
    [_compute_error_pose], leaves the error pose returned as it was. *)
Theorem unused_estimate_ignored
  (s : GotoVelocityController) (g : xyt)
  (pose_msg : PoseStamped) (odom_msg : Odometry) :
  xyt_goal s = Some g ->
  exists e s',
    _compute_error_pose s = ([Call_compute_error_pose], Ok e s) /\
    (if odom_only s
     then bind (_pose_update_callback pose_msg)
               (fun _ => _compute_error_pose) s
     else bind (_odom_update_callback odom_msg)
               (fun _ => _compute_error_pose) s)
    = ([Call_compute_error_pose], Ok e s').
Proof.
  intros Hg. exists (error_pose_of s g).
  destruct (odom_only s) eqn:Hoo.
  - eexists. split; [apply compute_error_pose_eq; assumption |].
    unfold bind. rewrite pose_update_callback_eq.
    rewrite (compute_error_pose_eq _ g) by exact Hg.
    unfold error_pose_of. simpl. rewrite Hoo. reflexivity.
  - eexists. split; [apply compute_error_pose_eq; assumption |].
    unfold bind. rewrite odom_update_callback_eq.
    rewrite (compute_error_pose_eq _ g) by exact Hg.
    unfold error_pose_of. simpl. rewrite Hoo. reflexivity.
Qed.

(** X10: switching [active] and switching it back (disable then enable
    on an active controller, enable then disable on an inactive one)
    publishes nothing and restores the object exactly: goal, estimates,
    flags and control law object are those from before. *)
Theorem toggle_active_round_trip
  (r1 r2 : TriggerRequest) (s : GotoVelocityController) :
  run (if active s
       then [In_disable r1; In_enable r2]
       else [In_enable r2; In_disable r1]) s
  = ([], Ok tt s).
Proof.
  destruct s as [h oo c l lo g a ty]. destruct a; reflexivity.
Qed.

(** X11: on a loop iteration with [active] true and a goal set, exactly
    one command is published: its [linear.x] and [angular.z] are the pair
    that the control law returns for the error pose of
    [_compute_error_pose], and the control law object is replaced by the
    one after that call; nothing else of the object changes. *)
Theorem tracking_tick_publishes_control_output
  (s : GotoVelocityController) (g : xyt) :
  active s = true ->
  xyt_goal s = Some g ->
  exists e cmd,
    _compute_error_pose s = ([Call_compute_error_pose], Ok e s) /\
    control_loop_body s =
      ([Call_compute_error_pose; Call_control e; Publish_cmd_vel cmd],
       Ok tt (set_control (snd (control_call (control s) e)) s)) /\
    v3_x (linear cmd) = fst (fst (control_call (control s) e)) /\
    v3_z (angular cmd) = snd (fst (control_call (control s) e)).
Proof.
  intros Ha Hg. exists (error_pose_of s g). eexists.
  split; [apply compute_error_pose_eq; assumption |].
  rewrite (control_loop_body_tracking s g Ha Hg). simpl.
  split; [reflexivity |]. split; reflexivity.
Qed.

(** X12: while no message arrives, [n] iterations of the loop on an
    active controller with a goal publish exactly [n] commands, and every
    call of the control law is made with the same error pose, the one
    that [_compute_error_pose] returns at the start. *)
Theorem tracking_loop_repeats_error
  (n : nat) (s : GotoVelocityController) (g : xyt) :
  active s = true ->
  xyt_goal s = Some g ->
  exists e tr s',
    _compute_error_pose s = ([Call_compute_error_pose], Ok e s) /\
    _run_control_loop n s = (tr, Ok tt s') /\
    count is_cmd_vel tr = n /\
    Forall (fun ev => forall e', control_arg ev = Some e' -> e' = e) tr.
Proof.
  intros Ha Hg. exists (error_pose_of s g).
  assert (H : forall s0,
             active s0 = true -> xyt_goal s0 = Some g ->
             error_pose_of s0 g = error_pose_of s g ->
             exists tr s',
               _run_control_loop n s0 = (tr, Ok tt s') /\
               count is_cmd_vel tr = n /\
               Forall (fun ev => forall e',
                         control_arg ev = Some e' -> e' = error_pose_of s g)
                      tr).
  { induction n as [| n IH]; intros s0 Ha0 Hg0 He0.
    - simpl. unfold ret. do 2 eexists. split; [reflexivity |].
      split; [reflexivity | apply Forall_nil].
    - simpl. unfold bind.
      rewrite (control_loop_body_tracking s0 g Ha0 Hg0). simpl.
      match goal with
      | |- context [_run_control_loop n ?s1] =>
          destruct (IH s1) as (tr & s' & Hr & Hc & Hall);
            [exact Ha0 | exact Hg0 | exact He0 |]
      end.
      rewrite Hr. do 2 eexists. split; [reflexivity |].
      split.
      + unfold count in *. simpl. rewrite Hc. reflexivity.
      + apply Forall_cons; [discriminate |].
        apply Forall_cons;
          [intros e' He'; simpl in He'; congruence |].
        apply Forall_cons; [discriminate | exact Hall]. }
  destruct (H s Ha Hg eq_refl) as (tr & s' & Hr & Hc & Hall).
  exists tr, s'. split; [apply compute_error_pose_eq; assumption |].
  auto.
Qed.

End ControllerExtras.

(** ** Further runs on the planar pose algebra *)

Section PlanarExtraRuns.

(** [error_pose_components] at the goal heading [PI] and the feedback
    heading [0]. *)
Lemma error_pose_components_witness :
  xyt_goal Planar.controller_pi = Some (mk_xyt 0 0 PI) /\
  exists e,
    _compute_error_pose Planar.controller_pi
    = ([Call_compute_error_pose], Ok e Planar.controller_pi) /\
    xyt_0 e =
      xyt_0 (xyt_global_to_base (mk_xyt 0 0 PI)
               (if odom_only Planar.controller_pi
                then xyt_loc_odom Planar.controller_pi
                else xyt_loc Planar.controller_pi)) /\
    xyt_1 e =
      xyt_1 (xyt_global_to_base (mk_xyt 0 0 PI)
               (if odom_only Planar.controller_pi
                then xyt_loc_odom Planar.controller_pi
                else xyt_loc Planar.controller_pi)).
Proof.
  split; [reflexivity |].
  apply (error_pose_components Planar.controller_pi (mk_xyt 0 0 PI)).
  reflexivity.
Defined.

(** [no_command_without_enable_goal_tick] on the controller as built,
    for a goal message and two loop iterations. *)
Lemma no_command_without_enable_goal_tick_witness :
  ((active Planar.controller0 = false /\
    Forall (fun i => is_enable_input i = false) Planar.sched_goal_ticks) \/
   (xyt_goal Planar.controller0 = None /\
    Forall (fun i => is_goal_input i = false) Planar.sched_goal_ticks) \/
   Forall (fun i => is_tick i = false) Planar.sched_goal_ticks) /\
  exists tr s',
    run Planar.sched_goal_ticks Planar.controller0 = (tr, Ok tt s') /\
    count is_cmd_vel tr = O /\
    count is_call_control tr = O /\
    control s' = control Planar.controller0.
Proof.
  assert (H : active Planar.controller0 = false /\
              Forall (fun i => is_enable_input i = false)
                     Planar.sched_goal_ticks).
  { split; [reflexivity |]. repeat constructor. }
  split; [left; exact H |].
  apply (no_command_without_enable_goal_tick
           Planar.sched_goal_ticks Planar.controller0).
  left; exact H.
Defined.

(** [goal_never_cleared] on a tracking controller that is disabled,
    iterates and is enabled again. *)
Lemma goal_never_cleared_witness :
  xyt_goal Planar.controller_pi = Some (mk_xyt 0 0 PI) /\
  exists tr s' g',
    run Planar.sched_disable_tick_enable Planar.controller_pi
    = (tr, Ok tt s') /\
    xyt_goal s' = Some g' /\
    (Forall (fun i => is_goal_input i = false)
            Planar.sched_disable_tick_enable ->
     g' = mk_xyt 0 0 PI).
Proof.
  split; [reflexivity |].
  apply (goal_never_cleared Planar.sched_disable_tick_enable
           Planar.controller_pi (mk_xyt 0 0 PI)).
  reflexivity.
Defined.

(** [last_goal_wins] for two goal messages and a loop iteration. *)
Lemma last_goal_wins_witness :
  Forall (fun i => is_goal_input i = false) [In_tick] /\
  exists tr s',
    run ([In_goal (Planar.goal_msg 1 0)]
         ++ In_goal (Planar.goal_msg 0 1) :: [In_tick])
        Planar.controller0
    = (tr, Ok tt s') /\
    xyt_goal s' =
      Some (sophus2xyt
              (SE3_of_matrix (matrix_from_pose_msg (Planar.goal_msg 0 1)))).
Proof.
  assert (H : Forall (fun i => is_goal_input i = false) [In_tick])
    by (repeat constructor).
  split; [exact H |].
  apply (last_goal_wins [In_goal (Planar.goal_msg 1 0)] [In_tick]
           (Planar.goal_msg 0 1) Planar.controller0 H).
Defined.

(** [unused_estimate_ignored] on a controller with odometry-only
    feedback. *)
Lemma unused_estimate_ignored_witness :
  xyt_goal Planar.controller_pi = Some (mk_xyt 0 0 PI) /\
  exists e s',
    _compute_error_pose Planar.controller_pi
    = ([Call_compute_error_pose], Ok e Planar.controller_pi) /\
    (if odom_only Planar.controller_pi
     then bind (_pose_update_callback Planar.pose_msg_2_3)
               (fun _ => _compute_error_pose) Planar.controller_pi
     else bind (_odom_update_callback Planar.odom_msg_2_3)
               (fun _ => _compute_error_pose) Planar.controller_pi)
    = ([Call_compute_error_pose], Ok e s').
Proof.
  split; [reflexivity |].
  apply (unused_estimate_ignored Planar.controller_pi (mk_xyt 0 0 PI)
           Planar.pose_msg_2_3 Planar.odom_msg_2_3).
  reflexivity.
Defined.

(** [tracking_tick_publishes_control_output] on a tracking controller. *)
Lemma tracking_tick_publishes_control_output_witness :
  active Planar.controller_pi = true /\
  xyt_goal Planar.controller_pi = Some (mk_xyt 0 0 PI) /\
  exists e cmd,
    _compute_error_pose Planar.controller_pi
    = ([Call_compute_error_pose], Ok e Planar.controller_pi) /\
    control_loop_body Planar.controller_pi =
      ([Call_compute_error_pose; Call_control e; Publish_cmd_vel cmd],
       Ok tt (set_control
                (snd (control_call (control Planar.controller_pi) e))
                Planar.controller_pi)) /\
    v3_x (linear cmd)
    = fst (fst (control_call (control Planar.controller_pi) e)) /\
    v3_z (angular cmd)
    = snd (fst (control_call (control Planar.controller_pi) e)).
Proof.
  split; [reflexivity | split; [reflexivity |]].
  apply (tracking_tick_publishes_control_output
           Planar.controller_pi (mk_xyt 0 0 PI)); reflexivity.
Defined.

(** [tracking_loop_repeats_error] for two iterations on a tracking
    controller. *)
Lemma tracking_loop_repeats_error_witness :
  active Planar.controller_pi = true /\
  xyt_goal Planar.controller_pi = Some (mk_xyt 0 0 PI) /\
  exists e tr s',
    _compute_error_pose Planar.controller_pi
    = ([Call_compute_error_pose], Ok e Planar.controller_pi) /\
    _run_control_loop 2 Planar.controller_pi = (tr, Ok tt s') /\
    count is_cmd_vel tr = 2%nat /\
    Forall (fun ev => forall e', control_arg ev = Some e' -> e' = e) tr.
Proof.
  split; [reflexivity | split; [reflexivity |]].
  apply (tracking_loop_repeats_error 2 Planar.controller_pi (mk_xyt 0 0 PI));
    reflexivity.
Defined.

End PlanarExtraRuns.

(** ** Properties of the video functions of the recorder *)

Section VideoFacts.

Context {bindata : Type}.
Variable py_int : string -> option Z.
Variable img_from_bytes : bindata -> Recorder.image.

Lemma swap_channels_eq (img : Recorder.image) :
  Recorder.swap_channels img =
  Recorder.mk_image (Recorder.shape_0 img) (Recorder.shape_1 img)
    (map (fun p : Recorder.pixel =>
            (Recorder.get_chan Recorder.C2 p,
             Recorder.get_chan Recorder.C1 p,
             Recorder.get_chan Recorder.C0 p))
         (Recorder.pixels img)).
Proof.
  destruct img as [s0 s1 px].
  unfold Recorder.swap_channels, Recorder.assign_channel, Recorder.zeros_like.
  simpl. f_equal.
  induction px as [| [[a b] c] px IH]; simpl.
  - reflexivity.
  - f_equal. exact IH.
Qed.


(** The list comprehension produces no event; it raises at a key that is
    not an integer, or pairs every key with its value, in order. *)
Lemma int_keys_cases (keys : list string) :
  (exists j,
     In j keys /\ py_int j = None /\
     Recorder.int_keys py_int keys = ([], inl (Recorder.ValueError j))) \/
  (exists pairs,
     Recorder.int_keys py_int keys = ([], inr pairs) /\
     map snd pairs = keys /\
     Forall (fun it => py_int (snd it) = Some (fst it)) pairs).
Proof.
  induction keys as [| j keys IH]; simpl.
  - right. exists []. repeat split. constructor.
  - destruct (py_int j) as [n |] eqn:Hj.
    + destruct IH as [(j' & Hin & Hn & He) | (pairs & He & Hm & Hall)].
      * left. exists j'. rewrite He. simpl. auto.
      * right. exists ((n, j) :: pairs). rewrite He. simpl.
        repeat split; [congruence | constructor; assumption].
    + left. exists j. auto.
Qed.

Lemma insert_by_key_perm (x : Z * string) (l : list (Z * string)) :
  Permutation (Recorder.insert_by_key x l) (x :: l).
Proof.
  induction l as [| y l IH]; simpl.
  - apply Permutation_refl.
  - destruct (fst x <=? fst y)%Z.
    + apply Permutation_refl.
    + eapply Permutation_trans; [apply perm_skip, IH | apply perm_swap].
Qed.

Lemma sorted_by_key_perm (l : list (Z * string)) :
  Permutation (Recorder.sorted_by_key l) l.
Proof.
  induction l as [| x l IH]; simpl.
  - constructor.
  - eapply Permutation_trans; [apply insert_by_key_perm |].
    apply perm_skip, IH.
Qed.











End VideoFacts.

Section VideoTheorems.

Context {bindata : Type}.
Variable py_int : string -> option Z.
Variable img_from_bytes : bindata -> Recorder.image.


(** X15: the two exceptions of [png_to_mp4] that do not depend on the
    keys: a group without the member [key] gives [KeyError], and an empty
    stream gives [AttributeError] ([writer] is still [None] at
    [writer.release()]); in both cases nothing but the [print] has
    happened. *)
Theorem png_to_mp4_missing_or_empty
  (group : Recorder.h5_group (Recorder.h5_group bindata))
  (key name : string) (fps : Z) :
  match Recorder.h5_getitem group key with
  | None =>
      Recorder.png_to_mp4 py_int img_from_bytes group key name fps =
      ([Recorder.Print_writing name], inl (Recorder.KeyError key))
  | Some [] =>
      Recorder.png_to_mp4 py_int img_from_bytes group key name fps =
      ([Recorder.Print_writing name], inl Recorder.AttributeError)
  | Some (_ :: _) => True
  end.
Proof.
  unfold Recorder.png_to_mp4, Recorder.getitem.
  destruct (Recorder.h5_getitem group key) as [[| m img_stream] |];
    [reflexivity | exact I | reflexivity].
Qed.

(** X16: a key of the stream that is not an integer makes [png_to_mp4]
    raise [ValueError] before any frame is read or written, also when
    other keys are integers: the list of pairs is built before the
    loop. *)
Theorem png_to_mp4_bad_key
  (group : Recorder.h5_group (Recorder.h5_group bindata))
  (key name : string) (fps : Z)
  (img_stream : Recorder.h5_group bindata) :
  Recorder.h5_getitem group key = Some img_stream ->
  Exists (fun j => py_int j = None) (Recorder.h5_keys img_stream) ->
  exists j,
    In j (Recorder.h5_keys img_stream) /\
    py_int j = None /\
    Recorder.png_to_mp4 py_int img_from_bytes group key name fps =
    ([Recorder.Print_writing name], inl (Recorder.ValueError j)).
Proof.
  intros Hg Hex.
  destruct (int_keys_cases py_int (Recorder.h5_keys img_stream))
    as [(j & Hin & Hn & He) | (pairs & _ & Hm & Hp)].
  - exists j. split; [exact Hin |]. split; [exact Hn |].
    unfold Recorder.png_to_mp4, Recorder.getitem.
    rewrite Hg. simpl. rewrite He. reflexivity.
  - exfalso. apply Exists_exists in Hex. destruct Hex as (j & Hin & Hn).
    rewrite <- Hm in Hin. apply in_map_iff in Hin.
    destruct Hin as (it & Hsnd & Hit).
    rewrite Forall_forall in Hp. specialize (Hp it Hit).
    rewrite Hsnd in Hp. congruence.
Qed.

(** X17: the channel assignments of [png_to_mp4] exchange the channels
    [0] and [2] of every pixel and keep channel [1] and the shape; done
    twice they give the image back. *)
Theorem swap_channels_involutive (img : Recorder.image) :
  Recorder.shape_0 (Recorder.swap_channels img) = Recorder.shape_0 img /\
  Recorder.shape_1 (Recorder.swap_channels img) = Recorder.shape_1 img /\
  Recorder.pixels (Recorder.swap_channels img) =
    map (fun p : Recorder.pixel =>
           (Recorder.get_chan Recorder.C2 p,
            Recorder.get_chan Recorder.C1 p,
            Recorder.get_chan Recorder.C0 p))
        (Recorder.pixels img) /\
  Recorder.swap_channels (Recorder.swap_channels img) = img.
Proof.
  rewrite !swap_channels_eq. simpl. repeat split.
  destruct img as [s0 s1 px]. simpl. f_equal.
  rewrite map_map. rewrite <- (map_id px) at 2.
  apply map_ext. intros [[a b] c]. reflexivity.
Qed.

End VideoTheorems.

Section VideoRaisingFacts.

Context {bindata : Type}.
Variable py_int : string -> option Z.
Variable img_from_bytes : bindata -> Recorder.exn + Recorder.image.
Variable VideoWriter_raises : Recorder.VideoWriter -> option Recorder.exn.
Variable write_raises :
  Recorder.VideoWriter -> Recorder.image -> option Recorder.exn.

Lemma count_cons {A : Type} (p : A -> bool) (x : A) (l : list A) :
  count p (x :: l) = ((if p x then 1 else 0) + count p l)%nat.
Proof.
  unfold count. simpl. destruct (p x); reflexivity.
Qed.

Lemma count_writes (p : Recorder.event -> bool) (wr : Recorder.VideoWriter)
  (frames : list Recorder.image) :
  (forall f, p (Recorder.VideoWriter_write wr f) = false) ->
  count p (map (Recorder.VideoWriter_write wr) frames) = O.
Proof.
  intros Hp. induction frames as [| f frames IH].
  - reflexivity.
  - simpl map. rewrite count_cons, Hp, IH. reflexivity.
Qed.

(** The loop once the writer exists: frames are written until an
    exception, if there is one. *)
Lemma raising_loop_open (name : string) (fps : Z)
  (img_stream : Recorder.h5_group bindata) (wr : Recorder.VideoWriter)
  (items : list (Z * string)) :
  exists r frames,
    Recorder.Raising.frames_loop img_from_bytes VideoWriter_raises
      write_raises name fps img_stream items (Some wr) =
    (map (Recorder.VideoWriter_write wr) frames, r) /\
    match r with
    | inr w' => w' = Some wr /\ List.length frames = List.length items
    | inl _ => (List.length frames < List.length items)%nat
    end.
Proof.
  induction items as [| [ki k] items IH].
  - exists (inr (Some wr)), []. split; [reflexivity | auto].
  - cbn [Recorder.Raising.frames_loop]. unfold Recorder.getitem.
    destruct (Recorder.h5_getitem img_stream k) as [bin |]; simpl.
    2: { eexists. exists []. split; [reflexivity | simpl; lia]. }
    destruct (img_from_bytes bin) as [e | img]; simpl.
    { eexists. exists []. split; [reflexivity | simpl; lia]. }
    destruct (write_raises wr (Recorder.swap_channels img)) as [e |]; simpl.
    { eexists. exists []. split; [reflexivity | simpl; lia]. }
    destruct IH as (r & frames & He & Hr). rewrite He.
    exists r, (Recorder.swap_channels img :: frames).
    split; [reflexivity |].
    destruct r as [e | w']; simpl; [lia |].
    destruct Hr as [-> Hl]. split; [reflexivity | lia].
Qed.

(** The loop from [writer = None]: no event at all, or a writer created
    for [name] and then frames until an exception, if there is one. *)
Lemma raising_loop_closed (name : string) (fps : Z)
  (img_stream : Recorder.h5_group bindata) (items : list (Z * string)) :
  exists tr r,
    Recorder.Raising.frames_loop img_from_bytes VideoWriter_raises
      write_raises name fps img_stream items None = (tr, r) /\
    ((tr = [] /\
      match r with
      | inr w' => w' = None /\ items = []
      | inl _ => True
      end) \/
     (exists wr frames,
        tr = Recorder.VideoWriter_new wr
               :: map (Recorder.VideoWriter_write wr) frames /\
        Recorder.vw_name wr = name /\
        Recorder.vw_fourcc wr = Recorder.fourcc /\
        Recorder.vw_fps wr = fps /\
        match r with
        | inr w' => w' = Some wr /\ List.length frames = List.length items
        | inl _ => (List.length frames < List.length items)%nat
        end)).
Proof.
  destruct items as [| [ki k] items].
  - do 2 eexists. split; [reflexivity |]. left. auto.
  - cbn [Recorder.Raising.frames_loop]. unfold Recorder.getitem.
    destruct (Recorder.h5_getitem img_stream k) as [bin |]; simpl.
    2: { do 2 eexists. split; [reflexivity |]. left. auto. }
    destruct (img_from_bytes bin) as [e | img]; simpl.
    { do 2 eexists. split; [reflexivity |]. left. auto. }
    set (wr := Recorder.mk_VideoWriter name Recorder.fourcc fps
                 (Recorder.shape_1 img, Recorder.shape_0 img)).
    destruct (VideoWriter_raises wr) as [e |]; simpl.
    { do 2 eexists. split; [reflexivity |]. left. auto. }
    destruct (write_raises wr (Recorder.swap_channels img)) as [e |]; simpl.
    { do 2 eexists. split; [reflexivity |]. right.
      exists wr, []. simpl. repeat split. lia. }
    destruct (raising_loop_open name fps img_stream wr items)
      as (r & frames & He & Hr).
    rewrite He. do 2 eexists. split; [reflexivity |]. right.
    exists wr, (Recorder.swap_channels img :: frames).
    split; [reflexivity |]. repeat split.
    destruct r as [e | w']; simpl; [lia |].
    destruct Hr as [-> Hl]. split; [reflexivity | lia].
Qed.

(** The traces of [png_to_mp4]: a whole video when it returns; the
    [print] alone, or a writer and some of the frames, when it raises. *)
Lemma raising_png_cases
  (group : Recorder.h5_group (Recorder.h5_group bindata))
  (key name : string) (fps : Z) :
  exists tr r,
    Recorder.Raising.png_to_mp4 py_int img_from_bytes VideoWriter_raises
      write_raises group key name fps = (tr, r) /\
    match r with
    | inr _ =>
        exists img_stream wr frames,
          Recorder.h5_getitem group key = Some img_stream /\
          tr = Recorder.Print_writing name
                 :: Recorder.VideoWriter_new wr
                 :: map (Recorder.VideoWriter_write wr) frames
                 ++ [Recorder.VideoWriter_release wr] /\
          Recorder.vw_name wr = name /\
          List.length frames = List.length img_stream
    | inl _ =>
        tr = [Recorder.Print_writing name] \/
        exists img_stream wr frames,
          Recorder.h5_getitem group key = Some img_stream /\
          tr = Recorder.Print_writing name
                 :: Recorder.VideoWriter_new wr
                 :: map (Recorder.VideoWriter_write wr) frames /\
          Recorder.vw_name wr = name /\
          (List.length frames < List.length img_stream)%nat
    end.
Proof.
  unfold Recorder.Raising.png_to_mp4, Recorder.getitem.
  destruct (Recorder.h5_getitem group key) as [img_stream |] eqn:Hg.
  2: { do 2 eexists. split; [reflexivity |]. left. reflexivity. }
  simpl.
  destruct (int_keys_cases py_int (Recorder.h5_keys img_stream))
    as [(j & _ & _ & He) | (pairs & He & Hm & _)]; rewrite He; simpl.
  { do 2 eexists. split; [reflexivity |]. left. reflexivity. }
  assert (Hlen : List.length (Recorder.sorted_by_key pairs)
                 = List.length img_stream).
  { rewrite (Permutation_length (sorted_by_key_perm pairs)).
    rewrite <- (length_map snd pairs), Hm.
    unfold Recorder.h5_keys. apply length_map. }
  destruct (raising_loop_closed name fps img_stream
              (Recorder.sorted_by_key pairs))
    as (tr & r & Hl & [[-> Hr] | (wr & frames & -> & Hn & _ & _ & Hr)]);
    rewrite Hl.
  - destruct r as [e | w']; simpl.
    + do 2 eexists. split; [reflexivity |]. left. reflexivity.
    + destruct Hr as [-> _]. simpl.
      do 2 eexists. split; [reflexivity |]. left. reflexivity.
  - destruct r as [e | w']; simpl.
    + do 2 eexists. split; [reflexivity |]. right.
      exists img_stream, wr, frames.
      split; [reflexivity |]. split; [reflexivity |].
      split; [exact Hn | lia].
    + destruct Hr as [-> Hf]. simpl.
      do 2 eexists. split; [reflexivity |].
      exists img_stream, wr, frames.
      split; [reflexivity |]. split; [reflexivity |].
      split; [exact Hn | lia].
Qed.


End VideoRaisingFacts.

Section VideoRaisingTheorems.

Context {bindata : Type}.
Variable py_int : string -> option Z.
Variable img_from_bytes : bindata -> Recorder.exn + Recorder.image.
Variable VideoWriter_raises : Recorder.VideoWriter -> option Recorder.exn.
Variable write_raises :
  Recorder.VideoWriter -> Recorder.image -> option Recorder.exn.

(** X13: [png_to_mp4] releases the video writer only when it returns.
    When it returns, it has created one writer, written one frame per
    member of the stream to it and released it.  When it raises, no
    writer is released: either nothing but the [print] has happened, or a
    writer was created and fewer frames than members were written to it,
    and it is left open. *)
Theorem png_to_mp4_releases_only_on_return
  (group : Recorder.h5_group (Recorder.h5_group bindata))
  (key name : string) (fps : Z) :
  exists tr r,
    Recorder.Raising.png_to_mp4 py_int img_from_bytes VideoWriter_raises
      write_raises group key name fps = (tr, r) /\
    match r with
    | inr _ =>
        exists img_stream wr frames,
          Recorder.h5_getitem group key = Some img_stream /\
          tr = Recorder.Print_writing name
                 :: Recorder.VideoWriter_new wr
                 :: map (Recorder.VideoWriter_write wr) frames
                 ++ [Recorder.VideoWriter_release wr] /\
          List.length frames = List.length img_stream
    | inl _ =>
        count Recorder.is_release tr = O /\
        (tr = [Recorder.Print_writing name] \/
         exists img_stream wr frames,
           Recorder.h5_getitem group key = Some img_stream /\
           tr = Recorder.Print_writing name
                  :: Recorder.VideoWriter_new wr
                  :: map (Recorder.VideoWriter_write wr) frames /\
           (List.length frames < List.length img_stream)%nat)
    end.
Proof.
  destruct (raising_png_cases py_int img_from_bytes VideoWriter_raises
              write_raises group key name fps) as (tr & r & He & Hc).
  exists tr, r. split; [exact He |].
  destruct r as [e | []].
  - destruct Hc as [-> | (img_stream & wr & frames & Hg & -> & _ & Hl)].
    + split; [reflexivity | left; reflexivity].
    + split.
      * rewrite !count_cons, count_writes by reflexivity. reflexivity.
      * right. exists img_stream, wr, frames. auto.
  - destruct Hc as (img_stream & wr & frames & Hg & -> & _ & Hl).
    exists img_stream, wr, frames. auto.
Qed.


End VideoRaisingTheorems.

Section VideoRaisingRuns.

Context {bindata : Type}.
Variable py_int : string -> option Z.
Variable img_from_bytes : bindata -> Recorder.image.

(** When no call raises, the loop is the loop of [Recorder.png_to_mp4]. *)
Lemma frames_loop_no_raise (name : string) (fps : Z)
  (img_stream : Recorder.h5_group bindata) (items : list (Z * string))
  (writer : option Recorder.VideoWriter) :
  Recorder.Raising.frames_loop (fun bin => inr (img_from_bytes bin))
    (fun _ => None) (fun _ _ => None) name fps img_stream items writer =
  Recorder.frames_loop img_from_bytes name fps img_stream items writer.
Proof.
  revert writer. induction items as [| [ki k] items IH]; intros writer.
  - reflexivity.
  - cbn [Recorder.Raising.frames_loop Recorder.frames_loop].
    unfold Recorder.getitem.
    destruct (Recorder.h5_getitem img_stream k) as [bin |]; simpl;
      [| reflexivity].
    destruct writer as [wr |]; simpl; rewrite IH;
      match goal with
      | |- context [Recorder.frames_loop ?f ?n ?p ?st ?it ?w] =>
          destruct (Recorder.frames_loop f n p st it w) as [tr r]
      end; reflexivity.
Qed.

(** When no call raises, [png_to_mp4] is [Recorder.png_to_mp4]. *)
Lemma png_to_mp4_no_raise
  (group : Recorder.h5_group (Recorder.h5_group bindata))
  (key name : string) (fps : Z) :
  Recorder.Raising.png_to_mp4 py_int (fun bin => inr (img_from_bytes bin))
    (fun _ => None) (fun _ _ => None) group key name fps =
  Recorder.png_to_mp4 py_int img_from_bytes group key name fps.
Proof.
  unfold Recorder.Raising.png_to_mp4, Recorder.png_to_mp4.
  unfold Recorder.bind at 1 5. simpl.
  destruct (Recorder.getitem group key) as [tr [e | img_stream]]; simpl;
    [reflexivity |].
  destruct (Recorder.int_keys py_int (Recorder.h5_keys img_stream))
    as [tr1 [e | pairs]]; simpl; [reflexivity |].
  rewrite frames_loop_no_raise. reflexivity.
Qed.

End VideoRaisingRuns.

(** On the sample group, with a decoder that fails on the member "10":
    the frame of the member "9" is written to a new writer, then the
    exception leaves [png_to_mp4], and the writer is not released. *)
Example png_to_mp4_partial_video :
  exists wr,
    Recorder.Raising.png_to_mp4 Recorder.int_of_digits
      Recorder.decode_but_a (fun _ => None) (fun _ _ => None)
      Recorder.sample_group "head_rgb" "out.mp4" 10%Z =
    ([Recorder.Print_writing "out.mp4";
      Recorder.VideoWriter_new wr;
      Recorder.VideoWriter_write wr
        (Recorder.mk_image 1 1 [(6, 5, 4)%Z])],
     inl (Recorder.Raised "OSError")).
Proof. eexists. reflexivity. Qed.

(** ** The video functions on a sample group *)

Section VideoRuns.


(** [png_to_mp4_bad_key] on a stream with the keys "1" and "x". *)
Lemma png_to_mp4_bad_key_witness :
  Recorder.h5_getitem
    [("head_rgb"%string,
      [("1"%string, Recorder.img_a); ("x"%string, Recorder.img_b)])]
    "head_rgb"
  = Some [("1"%string, Recorder.img_a); ("x"%string, Recorder.img_b)] /\
  Exists (fun j => Recorder.int_of_digits j = None)
    (Recorder.h5_keys
       [("1"%string, Recorder.img_a); ("x"%string, Recorder.img_b)]) /\
  exists j,
    In j (Recorder.h5_keys
            [("1"%string, Recorder.img_a); ("x"%string, Recorder.img_b)]) /\
    Recorder.int_of_digits j = None /\
    Recorder.png_to_mp4 Recorder.int_of_digits (fun img => img)
      [("head_rgb"%string,
        [("1"%string, Recorder.img_a); ("x"%string, Recorder.img_b)])]
      "head_rgb" "out.mp4" 10%Z =
    ([Recorder.Print_writing "out.mp4"], inl (Recorder.ValueError j)).
Proof.
  assert (H2 : Exists (fun j => Recorder.int_of_digits j = None)
                 (Recorder.h5_keys
                    [("1"%string, Recorder.img_a);
                     ("x"%string, Recorder.img_b)]))
    by (apply Exists_cons_tl, Exists_cons_hd; reflexivity).
  split; [reflexivity | split; [exact H2 |]].
  apply (png_to_mp4_bad_key Recorder.int_of_digits (fun img => img)
           [("head_rgb"%string,
             [("1"%string, Recorder.img_a); ("x"%string, Recorder.img_b)])]
           "head_rgb" "out.mp4" 10%Z
           [("1"%string, Recorder.img_a); ("x"%string, Recorder.img_b)]
           eq_refl H2).
Defined.

(** On the sample group the frame of the key "9" precedes the frame of
    the key "10". *)
Example png_to_mp4_sample :
  exists wr,
    Recorder.png_to_mp4 Recorder.int_of_digits (fun img => img)
      Recorder.sample_group "head_rgb" "out.mp4" 10%Z =
    ([Recorder.Print_writing "out.mp4";
      Recorder.VideoWriter_new wr;
      Recorder.VideoWriter_write wr
        (Recorder.mk_image 1 1 [(6, 5, 4)%Z]);
      Recorder.VideoWriter_write wr
        (Recorder.mk_image 1 1 [(3, 2, 1)%Z]);
      Recorder.VideoWriter_release wr],
     inr tt).
Proof. eexists. reflexivity. Qed.

End VideoRuns.

(** ** Properties of the recorder object *)

Section RecorderFacts.

Context {RE : RecorderObject.RobotEnv}.

(** What [save_frame] does: the robot is read, one image frame and one
    data frame are handed to the writer, and only [self.robot] may
    change. *)
Lemma save_frame_spec (is_keyframe : bool) (r : RecorderObject.Recorder) :
  exists rb rgb depth q dq fr,
    RecorderObject.save_frame is_keyframe r =
    ([RecorderObject.Add_img_frame rgb
        (RecorderObject.astype_uint16 (RecorderObject.np_mul depth 10000%Z));
      RecorderObject.Add_frame fr],
     ((rgb, depth, q, dq), RecorderObject.set_robot rb r)) /\
    RecorderObject.f_user_keyframe fr =
      RecorderObject.np_array_int [if is_keyframe then 1%Z else 0%Z].
Proof.
  unfold RecorderObject.save_frame, RecorderObject.bind,
    RecorderObject.robot_call, RecorderObject.emit, RecorderObject.ret.
  destruct r as [rb0 c1 c2 i st fn]. simpl.
  destruct (RecorderObject.get_images rb0) as [[[rgb depth] xyz] rb1].
  simpl.
  destruct (RecorderObject.update rb1) as [[q dq] rb2]. simpl.
  destruct (RecorderObject.get_pose "link_straight_gripper" "base_link" rb2)
    as [ee rb3]. simpl.
  destruct (RecorderObject.get_gripper_state q rb3) as [g rb4]. simpl.
  destruct (RecorderObject.get_base_pose rb4) as [bp rb5]. simpl.
  destruct (RecorderObject.get_camera_pose_matrix rb5) as [cp rb6]. simpl.
  exists rb6, rgb, depth, q, dq. eexists. split; [reflexivity |].
  destruct is_keyframe; reflexivity.
Qed.

Lemma spin_body_spec (r : RecorderObject.Recorder) :
  exists tr r',
    RecorderObject.spin_body r = (tr, (tt, r')) /\
    RecorderObject.same_but_robot r r' /\
    (if RecorderObject._recording_started r
     then exists rgb d16 fr,
            tr = [RecorderObject.Add_img_frame rgb d16;
                  RecorderObject.Add_frame fr] /\
            RecorderObject.f_user_keyframe fr =
              RecorderObject.np_array_int [0%Z]
     else tr = [RecorderObject.Print_dots] /\ r' = r).
Proof.
  unfold RecorderObject.spin_body.
  unfold RecorderObject.bind at 1. unfold RecorderObject.get at 1.
  destruct (RecorderObject._recording_started r) eqn:Hs; simpl.
  - destruct (save_frame_spec false r)
      as (rb & rgb & depth & q & dq & fr & He & Hk).
    unfold RecorderObject.bind. rewrite He. simpl.
    do 2 eexists. split; [reflexivity |].
    split; [repeat split |]. eauto.
  - do 2 eexists. split; [reflexivity |].
    split; [repeat split | auto].
Qed.

Lemma spin_loop_spec (n : nat) (r : RecorderObject.Recorder) :
  exists tr r',
    RecorderObject.spin_loop n r = (tr, (tt, r')) /\
    RecorderObject.same_but_robot r r' /\
    count RecorderObject.is_add_frame tr =
      (if RecorderObject._recording_started r then n else O) /\
    count RecorderObject.is_add_img_frame tr =
      (if RecorderObject._recording_started r then n else O) /\
    count RecorderObject.is_write_trial tr = O /\
    Forall RecorderObject.not_user_keyframe tr /\
    (RecorderObject._recording_started r = false ->
     tr = repeat RecorderObject.Print_dots n /\ r' = r).
Proof.
  revert r. induction n as [| n IH]; intros r.
  - simpl. unfold RecorderObject.ret. do 2 eexists.
    split; [reflexivity |]. split; [repeat split |].
    destruct (RecorderObject._recording_started r); repeat split; auto.
  - simpl. unfold RecorderObject.bind.
    destruct (spin_body_spec r) as (tr1 & r1 & He1 & (Hi & Hs & Hf) & Hb).
    rewrite He1.
    destruct (IH r1) as (tr2 & r2 & He2 & (Hi2 & Hs2 & Hf2) & Hc & Hc' & Hw
                         & Hk & Hd).
    rewrite He2. do 2 eexists. split; [reflexivity |].
    split; [repeat split; congruence |].
    rewrite !count_app, Hc, Hc', Hw, Hs.
    destruct (RecorderObject._recording_started r) eqn:Hst.
    + destruct Hb as (rgb & d16 & fr & -> & Hkf).
      split; [reflexivity |]. split; [reflexivity |].
      split; [reflexivity |]. split; [| discriminate].
      apply Forall_app. split; [| exact Hk].
      apply Forall_cons; [exact I |].
      apply Forall_cons; [exact Hkf | apply Forall_nil].
    + destruct Hb as [-> ->].
      split; [reflexivity |]. split; [reflexivity |].
      split; [reflexivity |]. split.
      * apply Forall_app. split; [| exact Hk].
        apply Forall_cons; [exact I | apply Forall_nil].
      * intros _. destruct (Hd Hst) as [-> ->]. split; reflexivity.
Qed.

Lemma finish_recording_eq (r : RecorderObject.Recorder) :
  RecorderObject.finish_recording r =
  ([RecorderObject.Print_done_recording (RecorderObject.idx r);
    RecorderObject.Write_trial (RecorderObject.idx r)],
   (tt, RecorderObject.set_idx (RecorderObject.idx r + 1)%Z r)).
Proof. reflexivity. Qed.

End RecorderFacts.

Section RecorderTheorems.

Context {RE : RecorderObject.RobotEnv}.

(** X19: [spin] stores one image frame and one data frame per iteration
    when recording has started and none when it has not, never a frame
    marked as a user keyframe; at shutdown it writes exactly one trial,
    under the index [idx] from before, also when no frame was stored;
    afterwards [idx] is one more and [_recording_started] and
    [_filename] are unchanged. *)
Theorem spin_records (n : nat) (r : RecorderObject.Recorder) :
  exists tr r',
    RecorderObject.spin n r =
    (tr ++ [RecorderObject.Print_done_recording (RecorderObject.idx r);
            RecorderObject.Write_trial (RecorderObject.idx r)],
     (tt, r')) /\
    RecorderObject.idx r' = (RecorderObject.idx r + 1)%Z /\
    RecorderObject._recording_started r' =
      RecorderObject._recording_started r /\
    RecorderObject._filename r' = RecorderObject._filename r /\
    count RecorderObject.is_add_frame tr =
      (if RecorderObject._recording_started r then n else O) /\
    count RecorderObject.is_add_img_frame tr =
      (if RecorderObject._recording_started r then n else O) /\
    count RecorderObject.is_write_trial tr = O /\
    Forall RecorderObject.not_user_keyframe tr.
Proof.
  unfold RecorderObject.spin, RecorderObject.bind.
  destruct (spin_loop_spec n r)
    as (tr & r1 & He & (Hi & Hs & Hf) & Hc & Hc' & Hw & Hk & _).
  rewrite He, finish_recording_eq. rewrite Hi.
  do 2 eexists. split; [reflexivity |]. simpl.
  repeat split; assumption || congruence.
Qed.

(** X20: the path of [__main__], a recorder built with the default
    [start_recording=False] and then [spin]: whatever the number of
    iterations, the robot is never read and no frame is stored; the loop
    only prints, and at shutdown the trial [0] is written and [idx]
    becomes [1]. *)
Theorem main_records_nothing (filename : string) (n : nat) :
  exists r',
    RecorderObject.spin n (snd (RecorderObject.__init__ filename false)) =
    (repeat RecorderObject.Print_dots n
       ++ [RecorderObject.Print_done_recording 0%Z;
           RecorderObject.Write_trial 0%Z],
     (tt, r')) /\
    RecorderObject.idx r' = 1%Z /\
    RecorderObject.self_robot r' = RecorderObject.StretchManipulationEnv.
Proof.
  unfold RecorderObject.spin, RecorderObject.bind.
  destruct (spin_loop_spec n (snd (RecorderObject.__init__ filename false)))
    as (tr & r1 & He & _ & _ & _ & _ & _ & Hd).
  destruct (Hd eq_refl) as [-> ->].
  rewrite He, finish_recording_eq. simpl.
  eexists. split; [reflexivity |]. split; reflexivity.
Qed.

(** X21: after [start_recording(task_name)], whatever the flag was, the
    configuration is given to the writer before any frame, and [spin]
    then stores one frame per iteration and writes the trial. *)
Theorem start_recording_then_spin
  (task_name : string) (n : nat) (r : RecorderObject.Recorder) :
  exists color depth tr r',
    RecorderObject.bind (RecorderObject.start_recording task_name)
      (fun _ => RecorderObject.spin n) r =
    (RecorderObject.Add_config color depth task_name
       :: RecorderObject.Print_ready (RecorderObject._filename r)
       :: tr
       ++ [RecorderObject.Print_done_recording (RecorderObject.idx r);
           RecorderObject.Write_trial (RecorderObject.idx r)],
     (tt, r')) /\
    count RecorderObject.is_add_frame tr = n /\
    count RecorderObject.is_add_img_frame tr = n /\
    RecorderObject._recording_started r' = true /\
    RecorderObject.idx r' = (RecorderObject.idx r + 1)%Z.
Proof.
  unfold RecorderObject.bind at 1.
  assert (Hs : RecorderObject.start_recording task_name r =
               ([RecorderObject.Add_config
                   (RecorderObject._construct_camera_info
                      (RecorderObject.rgb_cam (RecorderObject.self_robot r)))
                   (RecorderObject._construct_camera_info
                      (RecorderObject.dpt_cam (RecorderObject.self_robot r)))
                   task_name;
                 RecorderObject.Print_ready (RecorderObject._filename r)],
                (tt, RecorderObject.set_recording_started true r)))
    by reflexivity.
  rewrite Hs. unfold RecorderObject.spin, RecorderObject.bind.
  destruct (spin_loop_spec n (RecorderObject.set_recording_started true r))
    as (tr & r1 & He & (Hi & Hst & _) & Hc & Hc' & _).
  rewrite He, finish_recording_eq. rewrite Hi. simpl in *.
  do 4 eexists. split; [reflexivity |]. auto.
Qed.

End RecorderTheorems.

(** ** Retargeting and start-up of the controller *)

Section ControllerStartup.

Context {PA : PoseAlgebra} {VC : VelocityControl} {FR : Rounding}.

(** X22: a goal message and a call of the enable service may come in
    either order: from any state, both orders followed by a loop
    iteration give the same trace and the same object, and that
    iteration publishes exactly one command. *)
Theorem goal_enable_any_order
  (msg : Pose) (request : TriggerRequest) (s : GotoVelocityController) :
  exists tr s',
    run [In_goal msg; In_enable request; In_tick] s = (tr, Ok tt s') /\
    run [In_enable request; In_goal msg; In_tick] s = (tr, Ok tt s') /\
    count is_cmd_vel tr = 1%nat.
Proof.
  pose (g := sophus2xyt (SE3_of_matrix (matrix_from_pose_msg msg))).
  assert (Ht : forall s0,
             active s0 = true -> xyt_goal s0 = Some g ->
             exists tr s', run [In_tick] s0 = (tr, Ok tt s') /\
                           count is_cmd_vel tr = 1%nat).
  { intros s0 Ha Hg. rewrite run_cons. simpl dispatch.
    rewrite (control_loop_body_tracking s0 g Ha Hg). simpl.
    do 2 eexists. split; reflexivity. }
  destruct (Ht (set_active true (set_xyt_goal (Some g) s)) eq_refl eq_refl)
    as (tr & s' & Hr & Hc).
  exists (Publish_goal_abs
            (SE3_matrix
               (SE3_mul
                  (SE3_mul (xyt2sophus (xyt_loc s))
                           (SE3_inverse (xyt2sophus (xyt_loc_odom s))))
                  (SE3_of_matrix (matrix_from_pose_msg msg)))) :: tr), s'.
  assert (H1 : run [In_goal msg; In_enable request] s =
               ([Publish_goal_abs
                   (SE3_matrix
                      (SE3_mul
                         (SE3_mul (xyt2sophus (xyt_loc s))
                            (SE3_inverse (xyt2sophus (xyt_loc_odom s))))
                         (SE3_of_matrix (matrix_from_pose_msg msg))))],
                Ok tt (set_active true (set_xyt_goal (Some g) s))))
    by reflexivity.
  assert (H2 : run [In_enable request; In_goal msg] s =
               ([Publish_goal_abs
                   (SE3_matrix
                      (SE3_mul
                         (SE3_mul (xyt2sophus (xyt_loc s))
                            (SE3_inverse (xyt2sophus (xyt_loc_odom s))))
                         (SE3_of_matrix (matrix_from_pose_msg msg))))],
                Ok tt (set_active true (set_xyt_goal (Some g) s))))
    by reflexivity.
  split; [| split].
  - change [In_goal msg; In_enable request; In_tick]
      with ([In_goal msg; In_enable request] ++ [In_tick]).
    rewrite run_app, H1, Hr. reflexivity.
  - change [In_enable request; In_goal msg; In_tick]
      with ([In_enable request; In_goal msg] ++ [In_tick]).
    rewrite run_app, H2, Hr. reflexivity.
  - rewrite count_cons. simpl. exact Hc.
Qed.

(** X23: the goal can be replaced at any instant: on an active
    controller, the loop iteration that follows a goal message calls the
    control law with the error to the new goal (the position components
    are those of [xyt_global_to_base] for the new goal and the selected
    feedback pose), whatever the goal was before. *)
Theorem goal_update_takes_effect_next_tick
  (msg : Pose) (s : GotoVelocityController) :
  active s = true ->
  exists m e cmd s',
    run [In_goal msg; In_tick] s =
    ([Publish_goal_abs m; Call_compute_error_pose; Call_control e;
      Publish_cmd_vel cmd],
     Ok tt s') /\
    xyt_goal s' =
      Some (sophus2xyt (SE3_of_matrix (matrix_from_pose_msg msg))) /\
    xyt_0 e =
      xyt_0 (xyt_global_to_base
               (sophus2xyt (SE3_of_matrix (matrix_from_pose_msg msg)))
               (if odom_only s then xyt_loc_odom s else xyt_loc s)) /\
    xyt_1 e =
      xyt_1 (xyt_global_to_base
               (sophus2xyt (SE3_of_matrix (matrix_from_pose_msg msg)))
               (if odom_only s then xyt_loc_odom s else xyt_loc s)).
Proof.
  intros Ha.
  pose (g := sophus2xyt (SE3_of_matrix (matrix_from_pose_msg msg))).
  rewrite run_cons. simpl dispatch. rewrite goal_update_callback_eq.
  rewrite run_cons. simpl dispatch. fold g.
  rewrite (control_loop_body_tracking (set_xyt_goal (Some g) s) g Ha eq_refl).
  simpl. do 4 eexists. split; [reflexivity |].
  split; [reflexivity |].
  unfold error_pose_of. simpl.
  destruct (track_yaw s); split; reflexivity.
Qed.

End ControllerStartup.

Section PlanarStartupRuns.

(** [goal_update_takes_effect_next_tick] on a controller that tracks
    another goal. *)
Lemma goal_update_takes_effect_next_tick_witness :
  active Planar.controller_pi = true /\
  exists m e cmd s',
    run [In_goal (Planar.goal_msg 1 0); In_tick] Planar.controller_pi =
    ([Publish_goal_abs m; Call_compute_error_pose; Call_control e;
      Publish_cmd_vel cmd],
     Ok tt s') /\
    xyt_goal s' =
      Some (sophus2xyt
              (SE3_of_matrix (matrix_from_pose_msg (Planar.goal_msg 1 0)))) /\
    xyt_0 e =
      xyt_0 (xyt_global_to_base
               (sophus2xyt
                  (SE3_of_matrix
                     (matrix_from_pose_msg (Planar.goal_msg 1 0))))
               (if odom_only Planar.controller_pi
                then xyt_loc_odom Planar.controller_pi
                else xyt_loc Planar.controller_pi)) /\
    xyt_1 e =
      xyt_1 (xyt_global_to_base
               (sophus2xyt
                  (SE3_of_matrix
                     (matrix_from_pose_msg (Planar.goal_msg 1 0))))
               (if odom_only Planar.controller_pi
                then xyt_loc_odom Planar.controller_pi
                else xyt_loc Planar.controller_pi)).
Proof.
  split; [reflexivity |].
  apply (goal_update_takes_effect_next_tick
           (Planar.goal_msg 1 0) Planar.controller_pi).
  reflexivity.
Defined.

End PlanarStartupRuns.
